(** * SmsGPT: the SMS-to-model relay of [main.py]

    A shallow embedding of the message pipeline of [main.py]: the inbound
    route [incoming], the worker [process_prompt_with_delay], the model
    query [get_deepseek_response], the timer callback [send_pending_reply],
    [send_sms] and the round-robin [pick_gateway], together with the
    library behaviour they rely on ([str] methods, [hashlib.sha256],
    [threading.Timer]).

    Conventions.
    - A Python [str] is a Rocq [string] holding the bytes of its UTF-8
      encoding, so [encode()] is the identity.  [len], slices and [strip]
      work on the characters (code points) of the text, which [Py.chars]
      cuts out of the bytes; [strip] removes the white space of Unicode.
      Text with a lone surrogate has no such encoding and is not
      covered.
    - Clock readings ([time.time()]) and timer intervals are rationals, in
      seconds.
    - Module globals are the fields of [state]; functions that can raise
      run in the monad [M], which keeps the mutations done before the
      exception.
    - Threads: in [step] and [reachable], handling a request, a run of
      the worker and a timer thread coming out of its wait are each one
      step; the steps of different threads interleave, the statements
      within one do not.  [main.py] does not enforce this for the
      worker: the parts of a run that may interleave with another run
      are given apart ([worker_store], [worker_cancel], [worker_arm]),
      and the properties that rest on whole runs say so. *)

From Stdlib Require Import ZArith QArith Lqa String Ascii List Lia.
From stdpp Require Import gmap strings list.

(** ** hashlib.sha256, after FIPS 180-4 *)

Module SHA256.

Local Open Scope Z_scope.

Definition modulus : Z := 2 ^ 32.
Definition wrap (x : Z) : Z := x mod modulus.
Definition plus32 (x y : Z) : Z := wrap (x + y).

Definition rotr (n x : Z) : Z :=
  Z.lor (Z.shiftr x n) (wrap (Z.shiftl x (32 - n))).
Definition not32 (x : Z) : Z := Z.lxor x (modulus - 1).

Definition choose (x y z : Z) : Z :=
  Z.lxor (Z.land x y) (Z.land (not32 x) z).
Definition majority (x y z : Z) : Z :=
  Z.lxor (Z.lxor (Z.land x y) (Z.land x z)) (Z.land y z).
Definition big_sigma0 (x : Z) : Z :=
  Z.lxor (Z.lxor (rotr 2 x) (rotr 13 x)) (rotr 22 x).
Definition big_sigma1 (x : Z) : Z :=
  Z.lxor (Z.lxor (rotr 6 x) (rotr 11 x)) (rotr 25 x).
Definition small_sigma0 (x : Z) : Z :=
  Z.lxor (Z.lxor (rotr 7 x) (rotr 18 x)) (Z.shiftr x 3).
Definition small_sigma1 (x : Z) : Z :=
  Z.lxor (Z.lxor (rotr 17 x) (rotr 19 x)) (Z.shiftr x 10).

(** The constants are the leading 32 fractional bits of the square roots
    (initial hash value) and cube roots (round constants) of the first
    primes; they are computed here rather than tabulated. *)
Definition is_prime (n : nat) : bool :=
  forallb (fun d => negb (Nat.eqb (n mod d) 0)) (seq 2 (n - 2)).
Definition primes64 : list Z :=
  Eval vm_compute in
    map Z.of_nat (List.filter is_prime (seq 2 310)).

Fixpoint cube_root_between (fuel : nat) (lo hi n : Z) : Z :=
  match fuel with
  | O => lo
  | S fuel' =>
      if hi - lo <=? 1 then lo
      else
        let mid := (lo + hi) / 2 in
        if mid * mid * mid <=? n
        then cube_root_between fuel' mid hi n
        else cube_root_between fuel' lo mid n
  end.
Definition cube_root (n : Z) : Z := cube_root_between 200 0 (n + 1) n.

Definition initial_hash : list Z :=
  Eval vm_compute in
    map (fun p => wrap (Z.sqrt (p * 2 ^ 64))) (firstn 8 primes64).
Definition round_constants : list Z :=
  Eval vm_compute in
    map (fun p => wrap (cube_root (p * 2 ^ 96))) primes64.

(** Padding: a 1 bit, zeros up to 448 mod 512 bits, the bit length on
    64 bits. *)
Fixpoint big_endian (n : nat) (x : Z) : list Z :=
  match n with
  | O => []
  | S n' => (x / 256 ^ Z.of_nat n') mod 256 :: big_endian n' x
  end.

Definition pad (msg : list Z) : list Z :=
  let len := Z.of_nat (length msg) in
  let zeros := Z.to_nat ((55 - len) mod 64) in
  msg ++ 128 :: repeat 0 zeros ++ big_endian 8 (8 * len).

Fixpoint words_of (fuel : nat) (bytes : list Z) : list Z :=
  match fuel, bytes with
  | S fuel', b0 :: b1 :: b2 :: b3 :: rest =>
      (((b0 * 256 + b1) * 256 + b2) * 256 + b3) :: words_of fuel' rest
  | _, _ => []
  end.

(** The message schedule, kept newest word first while it is built. *)
Fixpoint extend (n : nat) (rev_w : list Z) : list Z :=
  match n with
  | O => rev_w
  | S n' =>
      let at_back k := nth k rev_w 0 in
      let w := plus32 (plus32 (small_sigma1 (at_back 1%nat)) (at_back 6%nat))
                      (plus32 (small_sigma0 (at_back 14%nat)) (at_back 15%nat)) in
      extend n' (w :: rev_w)
  end.
Definition schedule (block : list Z) : list Z :=
  rev (extend 48 (rev block)).

Record regs := Regs { ra : Z; rb : Z; rc : Z; rd : Z;
                      re : Z; rf : Z; rg : Z; rh : Z }.

Definition round (r : regs) (kw : Z * Z) : regs :=
  let t1 := plus32 (plus32 (plus32 (rh r) (big_sigma1 (re r)))
                           (plus32 (choose (re r) (rf r) (rg r)) (fst kw)))
                   (snd kw) in
  let t2 := plus32 (big_sigma0 (ra r)) (majority (ra r) (rb r) (rc r)) in
  Regs (plus32 t1 t2) (ra r) (rb r) (rc r) (plus32 (rd r) t1) (re r) (rf r) (rg r).

Definition compress (h : regs) (block : list Z) : regs :=
  let r := fold_left round (combine round_constants (schedule block)) h in
  Regs (plus32 (ra h) (ra r)) (plus32 (rb h) (rb r))
       (plus32 (rc h) (rc r)) (plus32 (rd h) (rd r))
       (plus32 (re h) (re r)) (plus32 (rf h) (rf r))
       (plus32 (rg h) (rg r)) (plus32 (rh h) (rh r)).

Fixpoint blocks_of (fuel : nat) (ws : list Z) : list (list Z) :=
  match fuel, ws with
  | S fuel', _ :: _ => firstn 16 ws :: blocks_of fuel' (skipn 16 ws)
  | _, _ => []
  end.

Definition start : regs :=
  match initial_hash with
  | [a; b; c; d; e; f; g; h] => Regs a b c d e f g h
  | _ => Regs 0 0 0 0 0 0 0 0
  end.

Definition digest (msg : list Z) : list Z :=
  let bytes := pad msg in
  let ws := words_of (length bytes) bytes in
  let r := fold_left compress (blocks_of (length ws) ws) start in
  [ra r; rb r; rc r; rd r; re r; rf r; rg r; rh r].

Definition hex_digit (d : Z) : ascii :=
  if d <? 10 then ascii_of_nat (Z.to_nat (48 + d))
  else ascii_of_nat (Z.to_nat (87 + d)).

Fixpoint hex_of_bytes (bytes : list Z) : string :=
  match bytes with
  | [] => EmptyString
  | b :: rest =>
      String (hex_digit (b / 16)) (String (hex_digit (b mod 16)) (hex_of_bytes rest))
  end.

Definition bytes_of_string (s : string) : list Z :=
  map (fun c => Z.of_nat (nat_of_ascii c)) (list_ascii_of_string s).

(** [hashlib.sha256(b).hexdigest()] *)
Definition hexdigest (s : string) : string :=
  hex_of_bytes (flat_map (big_endian 4) (digest (bytes_of_string s))).

End SHA256.

(** ** The [str] methods used by the server *)

Module Py.

(** A [str] is held as the bytes of its UTF-8 encoding, so that
    [s.encode()] is [s] itself.  A byte [10xxxxxx] continues the
    character begun before it; every other byte begins a character. *)
Definition is_continuation (c : ascii) : bool :=
  let n := nat_of_ascii c in
  (128 <=? n) && (n <? 192).

(** The string is empty or its first byte begins a character. *)
Definition starts_fresh (s : string) : bool :=
  match s with
  | EmptyString => true
  | String c _ => negb (is_continuation c)
  end.

(** The characters (code points) of a string, each as its bytes: a byte
    goes with the continuation bytes that follow it. *)
Fixpoint chars (s : string) : list string :=
  match s with
  | EmptyString => []
  | String c rest =>
      if starts_fresh rest then String c EmptyString :: chars rest
      else
        match chars rest with
        | ch :: more => String c ch :: more
        | [] => [String c EmptyString]
        end
  end.

(** The string made of the given characters. *)
Definition unchars (l : list string) : string :=
  fold_right String.append EmptyString l.

(** The bytes of the character with code point [cp]. *)
Definition utf8 (cp : N) : string :=
  let byte n := ascii_of_N n in
  if (cp <? 128)%N then String (byte cp) EmptyString
  else if (cp <? 2048)%N then
    String (byte (192 + cp / 64)%N) (String (byte (128 + cp mod 64)%N) EmptyString)
  else if (cp <? 65536)%N then
    String (byte (224 + cp / 4096)%N)
      (String (byte (128 + (cp / 64) mod 64)%N)
         (String (byte (128 + cp mod 64)%N) EmptyString))
  else
    String (byte (240 + cp / 262144)%N)
      (String (byte (128 + (cp / 4096) mod 64)%N)
         (String (byte (128 + (cp / 64) mod 64)%N)
            (String (byte (128 + cp mod 64)%N) EmptyString))).

(** The code points [str.strip()] removes, those with [c.isspace()]: tab
    to carriage return, the separators 0x1c-0x1f, the space, U+0085,
    U+00A0, U+1680, U+2000 to U+200A, U+2028, U+2029, U+202F, U+205F and
    U+3000. *)
Definition whitespace : list N :=
  [9; 10; 11; 12; 13; 28; 29; 30; 31; 32; 133; 160; 5760;
   8192; 8193; 8194; 8195; 8196; 8197; 8198; 8199; 8200; 8201; 8202;
   8232; 8233; 8239; 8287; 12288]%N.

(** [ch.isspace()] of one character *)
Definition isspace (ch : string) : bool :=
  existsb (fun cp => String.eqb ch (utf8 cp)) whitespace.

Fixpoint lstrip_chars (l : list string) : list string :=
  match l with
  | [] => []
  | ch :: rest => if isspace ch then lstrip_chars rest else l
  end.

Fixpoint rstrip_chars (l : list string) : list string :=
  match l with
  | [] => []
  | ch :: rest =>
      match rstrip_chars rest with
      | [] => if isspace ch then [] else [ch]
      | kept => ch :: kept
      end
  end.

(** [s.lstrip()] and [s.rstrip()] *)
Definition lstrip (s : string) : string := unchars (lstrip_chars (chars s)).
Definition rstrip (s : string) : string := unchars (rstrip_chars (chars s)).

(** [s.strip()] *)
Definition strip (s : string) : string := rstrip (lstrip s).

(** [s.lower()] on the letters [A] to [Z].  The other characters are left
    as they are; no character outside this range has [c], [h], [a] or [t]
    in its lower case, which is all the gate looks at. *)
Definition lower_char (c : ascii) : ascii :=
  let n := nat_of_ascii c in
  if (65 <=? n) && (n <=? 90) then ascii_of_nat (n + 32) else c.

(** [s.lower()] *)
Fixpoint lower (s : string) : string :=
  match s with
  | EmptyString => EmptyString
  | String c rest => String (lower_char c) (lower rest)
  end.

(** [s.startswith(p)] *)
Fixpoint startswith (s p : string) : bool :=
  match p, s with
  | EmptyString, _ => true
  | String _ _, EmptyString => false
  | String b p', String a s' => if Ascii.eqb a b then startswith s' p' else false
  end.

(** [s[n:]] for [n >= 0], counted in characters *)
Definition slice_from (n : nat) (s : string) : string := unchars (drop n (chars s)).

(** [s[:n]] for [n >= 0], counted in characters *)
Definition slice_to (n : nat) (s : string) : string := unchars (take n (chars s)).

(** [len(s)]: the number of characters *)
Definition len (s : string) : nat := length (chars s).

(** Truth value of a string: the empty string is false. *)
Definition truthy (s : string) : bool :=
  match s with EmptyString => false | String _ _ => true end.

(** [l[-n:]] on a list, for [n > 0] *)
Definition last_n {A} (n : nat) (l : list A) : list A :=
  drop (length l - n) l.

(** [x < y] on clock readings *)
Definition lt (x y : Q) : bool := negb (Qle_bool y x).

(** [s.split(sep)] for a separator of one character *)
Fixpoint split (sep : ascii) (s : string) : list string :=
  match s with
  | EmptyString => [EmptyString]
  | String c rest =>
      if Ascii.eqb c sep then EmptyString :: split sep rest
      else
        match split sep rest with
        | piece :: pieces => String c piece :: pieces
        | [] => [String c EmptyString]
        end
  end.

End Py.

(** ** Data *)

(** One entry of [GATEWAYS]; [os.getenv] gives [None] for an unset
    variable. *)
Record gateway := Gateway {
  API_KEY : option string;
  PROJECT_ID : option string;
  PHONE_ID : option string
}.

(** A chat message, [{"role": ..., "content": ...}]. *)
Record turn := Turn { role : string; content : string }.

(** A [threading.Timer] object: the interval and the argument of its
    callback [send_pending_reply], the clock reading at [start()] once it
    is started, the [finished] event ([cancel()] sets it) and whether its
    thread has come out of the wait. *)
Record Timer := MkTimer {
  t_interval : Q;
  t_args : string;
  t_started : option Q;
  t_finished : bool;
  t_woken : bool
}.

(** A POST to the Telerivet send endpoint, as [send_sms] issues it. *)
Record sms := Sms {
  via : gateway;
  to_number : string;
  message : string
}.

(** Outcome of the POST to the chat-completion endpoint: [requests.post]
    raises, or returns a response with a status code and, when it can be
    read, the text at [['choices'][0]['message']['content']] of its JSON
    body. *)
Inductive http_outcome :=
| ConnectionFailed
| Response (status_code : Z) (reply_text : option string).

Inductive exn := IndexError | KeyError | RequestException.

Inductive result (A : Type) :=
| Ok (a : A)
| Raise (e : exn).
Arguments Ok {A} a.
Arguments Raise {A} e.

(** The module globals, with the heap of timer objects (a timer is named
    by its position in [timers]) and the log of outbound messages. *)
Record state := State {
  gateway_index : nat;
  recent_messages : gmap string (string * Q);
  send_timers : gmap string nat;
  pending_replies : gmap string string;
  user_contexts : gmap string (list turn);
  timers : list Timer;
  outbox : list sms
}.

Definition initial_state : state :=
  State 0 ∅ ∅ ∅ ∅ [] [].

Definition set_gateway_index (i : nat) (st : state) : state :=
  State i (recent_messages st) (send_timers st) (pending_replies st)
        (user_contexts st) (timers st) (outbox st).
Definition set_recent_messages (m : gmap string (string * Q)) (st : state) : state :=
  State (gateway_index st) m (send_timers st) (pending_replies st)
        (user_contexts st) (timers st) (outbox st).
Definition set_send_timers (m : gmap string nat) (st : state) : state :=
  State (gateway_index st) (recent_messages st) m (pending_replies st)
        (user_contexts st) (timers st) (outbox st).
Definition set_pending_replies (m : gmap string string) (st : state) : state :=
  State (gateway_index st) (recent_messages st) (send_timers st) m
        (user_contexts st) (timers st) (outbox st).
Definition set_user_contexts (m : gmap string (list turn)) (st : state) : state :=
  State (gateway_index st) (recent_messages st) (send_timers st) (pending_replies st)
        m (timers st) (outbox st).
Definition set_timers (l : list Timer) (st : state) : state :=
  State (gateway_index st) (recent_messages st) (send_timers st) (pending_replies st)
        (user_contexts st) l (outbox st).
Definition set_outbox (l : list sms) (st : state) : state :=
  State (gateway_index st) (recent_messages st) (send_timers st) (pending_replies st)
        (user_contexts st) (timers st) l.

(** ** Computations that mutate the globals and may raise *)

Definition M (A : Type) : Type := state -> result A * state.

Definition ret {A} (a : A) : M A := fun st => (Ok a, st).
Definition raise {A} (e : exn) : M A := fun st => (Raise e, st).
Definition bind {A B} (c : M A) (k : A -> M B) : M B :=
  fun st =>
    match c st with
    | (Ok a, st') => k a st'
    | (Raise e, st') => (Raise e, st')
    end.
Definition get : M state := fun st => (Ok st, st).
Definition modify (f : state -> state) : M unit := fun st => (Ok tt, f st).

(** [try: c except Exception: h] *)
Definition try_except {A} (c : M A) (h : exn -> M A) : M A :=
  fun st =>
    match c st with
    | (Ok a, st') => (Ok a, st')
    | (Raise e, st') => h e st'
    end.

Declare Scope py_scope.
Delimit Scope py_scope with py.
Notation "'let*' x := c 'in' k" := (bind c (fun x => k))
  (at level 10, x name, c at level 100, k at level 200) : py_scope.
Notation "c ;; k" := (bind c (fun _ => k))
  (at level 100, k at level 200, right associativity) : py_scope.

(** ** Configuration *)

Definition TRIGGER_PREFIX : string := "Chat".
Definition MAX_SMS_CHARS : nat := 2400.
Definition REPEAT_TIMEOUT : Q := 30.
Definition MAX_CONTEXT_LEN : nat := 10.

(** The interval given to [Timer] in [process_prompt_with_delay]. *)
Definition SEND_DELAY : Q := 2.

Definition newline : string := String (ascii_of_nat 10) EmptyString.

(** The marker added to a shortened reply, ["\n[...truncated]"]. *)
Definition TRUNCATED : string := newline +:+ "[...truncated]".

(** The reply of [process_prompt_with_delay] when the query raises. *)
Definition UNAVAILABLE_REPLY : string :=
  "⚠️ DeepSeek is currently unavailable or quota has been exceeded.".

(** The reply of [get_deepseek_response] on a status other than 200. *)
Definition API_ERROR_REPLY : string :=
  "⚠️ DeepSeek API error. Try again later.".

(** The bodies and status codes [incoming] answers with. *)
Definition UNAUTHORIZED : string * Z := ("Unauthorized", 403%Z).
Definition IGNORED : string * Z := ("Ignored", 200%Z).
Definition DUPLICATE_IGNORED : string * Z := ("Duplicate ignored", 200%Z).
Definition OK : string * Z := ("OK", 200%Z).

(** The test of line 84 on the message text. *)
Definition passes_gate (content : string) : bool :=
  Py.startswith (Py.lower (Py.strip content)) (Py.lower TRIGGER_PREFIX).

(** The prompt as line 96 takes it from the message text. *)
Definition prompt_of (content : string) : string :=
  Py.strip (Py.slice_from (Py.len TRIGGER_PREFIX) content).

(** ** The server *)

Section Server.

(** [WHITELIST] and [GATEWAYS] are read from the environment when the
    module is loaded and never change. *)
Variable WHITELIST : gset string.
Variable GATEWAYS : list gateway.

Local Open Scope py_scope.

(** [pick_gateway()], lines 35-40. *)
Definition pick_gateway : M gateway :=
  let* st := get in
  match GATEWAYS !! gateway_index st with
  | None => raise IndexError
  | Some gw =>
      modify (set_gateway_index ((gateway_index st + 1) mod length GATEWAYS)) ;;
      ret gw
  end.

(** [send_sms(to_number, message)], lines 159-172: the POST is recorded
    in [outbox]; what Telerivet answers is only printed.  [outbox] holds
    the POSTs that are made, delivered or not: a POST that raises ends
    the timer thread after the same changes to the globals, and is not
    told apart here. *)
Definition send_sms (to_number message : string) : M unit :=
  let* gateway := pick_gateway in
  modify (fun st => set_outbox (outbox st ++ [Sms gateway to_number message]) st).

(** [send_pending_reply(from_number)], lines 123-127. *)
Definition send_pending_reply (from_number : string) : M unit :=
  let* st := get in
  let reply := pending_replies st !! from_number in
  modify (fun st => set_pending_replies (delete from_number (pending_replies st)) st) ;;
  modify (fun st => set_send_timers (delete from_number (send_timers st)) st) ;;
  match reply with
  | Some reply => if Py.truthy reply then send_sms from_number reply else ret tt
  | None => ret tt
  end.

(** [user_contexts[from_number]] on the [defaultdict(list)]. *)
Definition context_of (from_number : string) (st : state) : list turn :=
  default [] (user_contexts st !! from_number).

(** [user_contexts[from_number].append(t)] *)
Definition context_append (from_number : string) (t : turn) : M unit :=
  modify (fun st =>
    set_user_contexts
      (<[from_number := context_of from_number st ++ [t]]> (user_contexts st)) st).

(** [get_deepseek_response(from_number, prompt)], lines 129-157; [http]
    is what the POST at line 147 does. *)
Definition get_deepseek_response (from_number prompt : string)
    (http : http_outcome) : M string :=
  context_append from_number (Turn "user" prompt) ;;
  let* st := get in
  (if MAX_CONTEXT_LEN <? length (context_of from_number st)
   then modify (set_user_contexts
          (<[from_number := Py.last_n MAX_CONTEXT_LEN (context_of from_number st)]>
             (user_contexts st)))
   else ret tt) ;;
  match http with
  | ConnectionFailed => raise RequestException
  | Response status_code reply_text =>
      if (status_code =? 200)%Z then
        match reply_text with
        | None => raise KeyError
        | Some text =>
            let reply := Py.strip text in
            context_append from_number (Turn "assistant" reply) ;;
            if MAX_SMS_CHARS <? Py.len reply
            then ret (Py.slice_to MAX_SMS_CHARS reply +:+ TRUNCATED)
            else ret reply
        end
      else ret API_ERROR_REPLY
  end.

(** [cancel()] on the timer object at [id]. *)
Definition cancel (id : nat) : M unit :=
  modify (fun st =>
    set_timers
      (alter (fun tm => MkTimer (t_interval tm) (t_args tm) (t_started tm) true (t_woken tm))
             id (timers st)) st).

(** [start()] on the timer object at [id], at clock reading [now]. *)
Definition start (id : nat) (now : Q) : M unit :=
  modify (fun st =>
    set_timers
      (alter (fun tm => MkTimer (t_interval tm) (t_args tm) (Some now)
                                (t_finished tm) (t_woken tm))
             id (timers st)) st).

(** [process_prompt_with_delay(from_number, prompt)], lines 107-121;
    [now] is the clock reading when the new timer is started. *)
Definition process_prompt_with_delay (from_number prompt : string)
    (http : http_outcome) (now : Q) : M unit :=
  let* reply :=
    try_except (get_deepseek_response from_number prompt http)
               (fun _ => ret UNAVAILABLE_REPLY) in
  modify (fun st =>
    set_pending_replies (<[from_number := reply]> (pending_replies st)) st) ;;
  let* st := get in
  match send_timers st !! from_number with
  | Some id => cancel id
  | None => ret tt
  end ;;
  let* st := get in
  let timer := length (timers st) in
  modify (set_timers (timers st ++ [MkTimer SEND_DELAY from_number None false false])) ;;
  modify (fun st => set_send_timers (<[from_number := timer]> (send_timers st)) st) ;;
  start timer now.

(** Lines 114-121 of [process_prompt_with_delay] in three parts, for runs
    of the worker whose statements interleave with those of another run:
    line 114, lines 116-117, and lines 119-121, where the timer object is
    the local [timer] of the run.  Nothing in [main.py] keeps two runs
    for one sender from interleaving between these parts. *)
Definition worker_store (from_number reply : string) : M unit :=
  modify (fun st =>
    set_pending_replies (<[from_number := reply]> (pending_replies st)) st).

Definition worker_cancel (from_number : string) : M unit :=
  let* st := get in
  match send_timers st !! from_number with
  | Some id => cancel id
  | None => ret tt
  end.

Definition worker_arm (from_number : string) (now : Q) : M unit :=
  let* st := get in
  let timer := length (timers st) in
  modify (set_timers (timers st ++ [MkTimer SEND_DELAY from_number None false false])) ;;
  modify (fun st => set_send_timers (<[from_number := timer]> (send_timers st)) st) ;;
  start timer now.

(** [incoming()], lines 77-100, from the decoded fields on:
    [from_number] is [data.get("from_number")], [content] is
    [data.get("content", "")].  [clock_test] and [clock_store] are the
    readings of [time.time()] at lines 91 and 95.  The result is the
    response, the arguments of the thread started at line 99 if any, and
    the globals afterwards. *)
Definition incoming (from_number : option string) (content : string)
    (clock_test clock_store : Q) (st : state)
    : (string * Z) * option (string * string) * state :=
  match from_number with
  | None => (UNAUTHORIZED, None, st)
  | Some from_number =>
      if negb (Py.truthy from_number) || negb (bool_decide (from_number ∈ WHITELIST))
      then (UNAUTHORIZED, None, st)
      else if negb (passes_gate content)
      then (IGNORED, None, st)
      else
        let msg_hash := SHA256.hexdigest content in
        let '(last_hash, last_time) :=
          match recent_messages st !! from_number with
          | Some (h, t) => (Some h, t)
          | None => (None, 0%Q)
          end in
        if bool_decide (Some msg_hash = last_hash)
           && Py.lt (clock_test - last_time) REPEAT_TIMEOUT
        then (DUPLICATE_IGNORED, None, st)
        else
          let st' := set_recent_messages
                       (<[from_number := (msg_hash, clock_store)]> (recent_messages st)) st in
          let prompt := prompt_of content in
          (OK, Some (from_number, prompt), st')
  end.

(** ** Timer threads

    [Timer.run]: once the wait is over, the callback runs unless
    [finished] is set, and [finished] is set after it.  An exception in
    the callback ends the thread there. *)
Definition Timer_run (id : nat) (st : state) : state :=
  match timers st !! id with
  | None => st
  | Some tm =>
      if t_woken tm then st
      else
        let woken f := MkTimer (t_interval tm) (t_args tm) (t_started tm) f true in
        let st1 := set_timers (<[id := woken (t_finished tm)]> (timers st)) st in
        if t_finished tm then st1
        else
          match send_pending_reply (t_args tm) st1 with
          | (Ok _, st2) => set_timers (<[id := woken true]> (timers st2)) st2
          | (Raise _, st2) => st2
          end
  end.

(** A timer is due at [now] when its thread is still waiting and the
    interval has passed since [start()]. *)
Definition due (now : Q) (tm : Timer) : bool :=
  match t_started tm with
  | Some t0 => negb (t_woken tm) && Qle_bool (t0 + t_interval tm) now
  | None => false
  end.

Definition wake (now : Q) (st : state) (id : nat) : state :=
  match timers st !! id with
  | Some tm => if due now tm then Timer_run id st else st
  | None => st
  end.

(** A timer whose callback is still to come: not cancelled, thread
    still waiting. *)
Definition live (tm : Timer) : bool :=
  negb (t_finished tm) && negb (t_woken tm).

(** The clock reaches [now]: every timer due by then runs, in the order
    the timers were started. *)
Definition elapse (now : Q) (st : state) : state :=
  fold_left (wake now) (seq 0 (length (timers st))) st.

(** The messages posted for [from_number], oldest first. *)
Definition sent_to (from_number : string) (st : state) : list string :=
  message <$> List.filter (fun m => String.eqb (to_number m) from_number) (outbox st).

(** [n] calls of [pick_gateway] in a row, with what they return. *)
Fixpoint pick_gateways (n : nat) : M (list gateway) :=
  match n with
  | O => ret []
  | S n' =>
      let* gw := pick_gateway in
      let* rest := pick_gateways n' in
      ret (gw :: rest)
  end.

(** [n] questions of one sender in a row, each answered with status 200
    and the text [text]. *)
Fixpoint exchanges (n : nat) (from_number prompt text : string) (st : state) : state :=
  match n with
  | O => st
  | S n' =>
      exchanges n' from_number prompt text
        (snd (get_deepseek_response from_number prompt (Response 200 (Some text)) st))
  end.

End Server.

(** ** Notions used in the statements *)

(** The prompt as the pipeline is described: the trigger prefix taken off
    the trimmed text, and the rest trimmed. *)
Definition spec_prompt (content : string) : string :=
  Py.strip (Py.slice_from (Py.len TRIGGER_PREFIX) (Py.strip content)).

(** The model query fails: the POST raises, the status is not 200, or the
    reply text cannot be read from the body. *)
Definition is_failure (http : http_outcome) : bool :=
  match http with
  | ConnectionFailed => true
  | Response status_code reply_text =>
      negb (status_code =? 200)%Z || negb (bool_decide (is_Some reply_text))
  end.

(** The cursor points into the gateway list. *)
Definition cursor_valid (GATEWAYS : list gateway) (st : state) : Prop :=
  gateway_index st < length GATEWAYS.

(** Every live timer is the one [send_timers] holds for its sender. *)
Definition timers_registered (st : state) : Prop :=
  forall id tm,
    timers st !! id = Some tm -> live tm = true ->
    send_timers st !! t_args tm = Some id.

(** The globals after lines 136-138 of [get_deepseek_response]: the user
    turn is at the end of the sender's context, cut to the last
    [MAX_CONTEXT_LEN] turns. *)
Definition asked (from_number prompt : string) (st : state) : state :=
  set_user_contexts
    (<[from_number := Py.last_n MAX_CONTEXT_LEN
                        (context_of from_number st ++ [Turn "user" prompt])]>
       (user_contexts st)) st.

(** The globals after line 150: the assistant turn follows. *)
Definition answered (from_number prompt reply : string) (st : state) : state :=
  set_user_contexts
    (<[from_number := context_of from_number (asked from_number prompt st)
                        ++ [Turn "assistant" reply]]>
       (user_contexts st)) st.

(** The text that goes on towards the SMS for a model reply. *)
Definition sms_text (reply : string) : string :=
  if MAX_SMS_CHARS <? Py.len reply
  then Py.slice_to MAX_SMS_CHARS reply +:+ TRUNCATED
  else reply.

(** The reply [process_prompt_with_delay] stores, and the globals after
    the model query. *)
Definition reply_of (from_number prompt : string) (http : http_outcome)
    (st : state) : string :=
  match fst (get_deepseek_response from_number prompt http st) with
  | Ok reply => reply
  | Raise _ => UNAVAILABLE_REPLY
  end.
Definition queried (from_number prompt : string) (http : http_outcome)
    (st : state) : state :=
  snd (get_deepseek_response from_number prompt http st).

(** The timer heap after [cancel()] on the timer [send_timers] holds, if
    any. *)
Definition cancelled (held : option nat) (l : list Timer) : list Timer :=
  match held with
  | Some id =>
      alter (fun tm => MkTimer (t_interval tm) (t_args tm) (t_started tm) true (t_woken tm))
            id l
  | None => l
  end.

(** The globals after lines 114-121 of [process_prompt_with_delay]. *)
Definition scheduled (from_number reply : string) (now : Q) (st : state) : state :=
  State (gateway_index st) (recent_messages st)
        (<[from_number := length (timers st)]> (send_timers st))
        (<[from_number := reply]> (pending_replies st))
        (user_contexts st)
        (cancelled (send_timers st !! from_number) (timers st)
           ++ [MkTimer SEND_DELAY from_number (Some now) false false])
        (outbox st).

(** The globals after lines 124-125 of [send_pending_reply]. *)
Definition popped (from_number : string) (st : state) : state :=
  set_send_timers (delete from_number (send_timers st))
    (set_pending_replies (delete from_number (pending_replies st)) st).

(** One step of the running server: a request is handled, a worker thread
    runs, or the thread of a timer comes out of its wait.  Each is taken
    as a whole: [reachable] below describes the schedules in which the
    run of a worker, its model query included, is not interleaved with
    another thread.  [main.py] has no lock that enforces this; what the
    parts of two runs do when they interleave is shown on [Sample.stray]
    and [Sample.crowded]. *)
Inductive step (WHITELIST : gset string) (GATEWAYS : list gateway)
    : state -> state -> Prop :=
| step_request from_number content clock_test clock_store st :
    step WHITELIST GATEWAYS st
      (snd (incoming WHITELIST from_number content clock_test clock_store st))
| step_worker from_number prompt http now st :
    step WHITELIST GATEWAYS st
      (snd (process_prompt_with_delay from_number prompt http now st))
| step_timer now id st :
    step WHITELIST GATEWAYS st (wake GATEWAYS now st id).

(** The states the server can be in, from start-up on. *)
Inductive reachable (WHITELIST : gset string) (GATEWAYS : list gateway)
    : state -> Prop :=
| reachable_start : reachable WHITELIST GATEWAYS initial_state
| reachable_step st st' :
    reachable WHITELIST GATEWAYS st -> step WHITELIST GATEWAYS st st' ->
    reachable WHITELIST GATEWAYS st'.

(** What the callback posts, given the reply it finds and the gateway at
    the cursor. *)
Definition posted (s : string) (found : option string) (gw : option gateway)
    : list sms :=
  match found, gw with
  | Some reply, Some gw => if Py.truthy reply then [Sms gw s reply] else []
  | _, _ => []
  end.

(** ** Start-up and request decoding *)

(** Lines 19-30: the two gateways, from the environment ([getenv] is
    [os.getenv]). *)
Definition GATEWAYS_of_env (getenv : string -> option string) : list gateway :=
  [ Gateway (getenv "TELERIVET_API_KEY_1") (getenv "TELERIVET_PROJECT_ID_1")
            (getenv "TELERIVET_PHONE_ID_1");
    Gateway (getenv "TELERIVET_API_KEY_2") (getenv "TELERIVET_PROJECT_ID_2")
            (getenv "TELERIVET_PHONE_ID_2") ].

(** Lines 43-44: the allow-list, from the environment variable
    [PHONE_NUMBER]. *)
Definition WHITELIST_of_env (getenv : string -> option string) : gset string :=
  let whitelist_str := default EmptyString (getenv "PHONE_NUMBER") in
  if Py.truthy whitelist_str
  then list_to_set (Py.split "," whitelist_str)
  else ∅.

Definition BAD_REQUEST : string * Z := ("Bad Request", 400%Z).

(** [incoming()] from line 73 on: [data] is the decoded body, a form or a
    JSON object whose values are strings.  An empty body is refused; the
    two fields are read with [data.get] and handed to the rest of the
    route. *)
Definition incoming_post (WHITELIST : gset string) (data : gmap string string)
    (clock_test clock_store : Q) (st : state)
    : (string * Z) * option (string * string) * state :=
  if bool_decide (data = ∅) then (BAD_REQUEST, None, st)
  else
    let from_number := data !! "from_number" in
    let content := default EmptyString (data !! "content") in
    incoming WHITELIST from_number content clock_test clock_store st.

(** Calls of [send_sms] in a row, one for each (number, message) pair. *)
Fixpoint send_all (GATEWAYS : list gateway) (msgs : list (string * string))
    : M unit :=
  match msgs with
  | [] => ret tt
  | (to, text) :: rest =>
      bind (send_sms GATEWAYS to text) (fun _ => send_all GATEWAYS rest)
  end.

(** ** Further notions used in the statements *)

(** [",".join(l)] *)
Fixpoint joined (l : list string) : string :=
  match l with
  | [] => EmptyString
  | [x] => x
  | x :: rest => x +:+ String "," (joined rest)
  end.

(** The string holds no comma. *)
Fixpoint comma_free (s : string) : bool :=
  match s with
  | EmptyString => true
  | String c rest => negb (Ascii.eqb c ",") && comma_free rest
  end.


(** Notions on the bytes of a string, for the lemmas on [Py.chars]. *)
Fixpoint only_continuation (s : string) : bool :=
  match s with
  | EmptyString => true
  | String c rest => Py.is_continuation c && only_continuation rest
  end.

(** One byte and the continuation bytes after it. *)
Definition is_char (ch : string) : bool :=
  match ch with
  | EmptyString => false
  | String _ rest => only_continuation rest
  end.

(** A list of characters that is the [Py.chars] of its concatenation. *)
Definition segmented (l : list string) : Prop :=
  Forall (fun ch => is_char ch = true) l /\
  Forall (fun ch => Py.starts_fresh ch = true) (tail l).

Definition whitespace_chars : list string :=
  Eval vm_compute in map Py.utf8 Py.whitespace.



(** The bytes of a string that begin a character. *)
Fixpoint count_fresh (s : string) : nat :=
  match s with
  | EmptyString => 0
  | String c rest => (if Py.is_continuation c then 0 else 1) + count_fresh rest
  end.



(** The timer [send_timers] holds for a sender was made for that sender. *)
Definition timers_owned (st : state) : Prop :=
  forall s id,
    send_timers st !! s = Some id ->
    exists tm, timers st !! id = Some tm /\ t_args tm = s.

(** Every pending reply has its timer: registered for the sender, started
    with the interval [SEND_DELAY], and live. *)
Definition pending_has_timer (st : state) : Prop :=
  forall s reply,
    pending_replies st !! s = Some reply ->
    exists id tm,
      send_timers st !! s = Some id /\ timers st !! id = Some tm /\
      live tm = true /\ t_args tm = s /\
      is_Some (t_started tm) /\ t_interval tm = SEND_DELAY.

(** No context is longer than [MAX_CONTEXT_LEN + 1] turns. *)
Definition contexts_bounded (st : state) : Prop :=
  forall s, length (context_of s st) <= S MAX_CONTEXT_LEN.

(** The outbox entries a run of sends adds: the gateways picked, paired
    with the (number, message) pairs. *)
Definition deliveries (gws : list gateway) (msgs : list (string * string))
    : list sms :=
  zip_with (fun gw msg => Sms gw (fst msg) (snd msg)) gws msgs.

(** ** Sample configuration, for the concrete runs *)

Module Sample.

Definition gateway1 : gateway := Gateway (Some "key-1") (Some "PJ1") (Some "PN1").
Definition gateway2 : gateway := Gateway (Some "key-2") (Some "PJ2") (Some "PN2").
Definition GATEWAYS : list gateway := [gateway1; gateway2].
Definition sender : string := "+15550100".
Definition WHITELIST : gset string := {[ sender ]}.

(** A reply of 2401 characters. *)
Definition long_reply : string :=
  Eval vm_compute in string_of_list_ascii (repeat "x"%char 2401).

(** An environment with the allow-list of two numbers. *)
Definition getenv (name : string) : option string :=
  if String.eqb name "PHONE_NUMBER" then Some "+15550100,+15550101"
  else if String.eqb name "TELERIVET_API_KEY_1" then Some "key-1"
  else if String.eqb name "TELERIVET_API_KEY_2" then Some "key-2"
  else None.

(** The state after one answered question of the sample sender. *)
Definition busy : state :=
  snd (process_prompt_with_delay sender "hi" (Response 200 (Some "hello")) 0
         initial_state).


(** A reply of 1300 accented letters: 1300 characters in 2600 bytes. *)
Definition accented_reply : string :=
  Eval vm_compute in Py.unchars (repeat (Py.utf8 233) 1300).

(** Two runs of the worker for the sample sender whose statements
    interleave: both are through lines 116-117 before either registers
    its timer.  The timer of the first run is left waiting although
    [send_timers] holds the timer of the second. *)
Definition stray : state :=
  let s := sender in
  let after (c : M unit) (st : state) := snd (c st) in
  let st1 := queried s "a" (Response 200 (Some "early")) initial_state in
  let st2 := queried s "b" (Response 200 (Some "late")) st1 in
  let st3 := after (worker_store s "early") st2 in
  let st4 := after (worker_store s "late") st3 in
  let st5 := after (worker_cancel s) st4 in
  let st6 := after (worker_cancel s) st5 in
  let st7 := after (worker_arm s 0) st6 in
  after (worker_arm s 0) st7.

(** Five answered questions of the sample sender, then two queries in
    flight together: both user turns are appended (lines 136-138) before
    either answer is (line 150). *)
Definition crowded : state :=
  let s := sender in
  let full := Nat.iter 5 (queried s "q" (Response 200 (Some "r"))) initial_state in
  let st1 := asked s "a" full in
  let st2 := asked s "b" st1 in
  let st3 := snd (context_append s (Turn "assistant" "A") st2) in
  snd (context_append s (Turn "assistant" "B") st3).

End Sample.

(** * Properties *)

(** ** hashlib.sha256 against the published test vectors *)

Example sha256_of_empty :
  SHA256.hexdigest "" =
  "e3b0c44298fc1c149afbf4c8996fb92427ae41e4649b934ca495991b7852b855".
Proof. vm_compute. reflexivity. Qed.

Example sha256_of_abc :
  SHA256.hexdigest "abc" =
  "ba7816bf8f01cfea414140de5dae2223b00361a396177a9cb410ff61f20015ad".
Proof. vm_compute. reflexivity. Qed.

(** Two blocks: the 56-byte vector of FIPS 180-4. *)
Example sha256_of_two_blocks :
  SHA256.hexdigest "abcdbcdecdefdefgefghfghighijhijkijkljklmklmnlmnomnopnopq" =
  "248d6a61d20638b8e5c026930c3e6039a33ce45964ff2167f6ecedd419db06c1".
Proof. vm_compute. reflexivity. Qed.

(** ** Strings and the clock *)

Lemma lt_true (x y : Q) : Py.lt x y = true <-> (x < y)%Q.
Proof.
  unfold Py.lt. rewrite negb_true_iff.
  destruct (Qle_bool y x) eqn:E.
  - apply Qle_bool_iff in E. split; [discriminate | intros H; exfalso; lra].
  - split; [intros _ | reflexivity].
    destruct (Qlt_le_dec x y) as [H | H]; [exact H |].
    apply Qle_bool_iff in H. congruence.
Qed.

(** ** Strings as characters *)

Lemma append_nil_r (s : string) : s +:+ "" = s.
Proof.
  induction s as [| c s IH]; [reflexivity |].
  change (String c s +:+ "") with (String c (s +:+ "")). now rewrite IH.
Qed.

Lemma append_assoc (a b c : string) : (a +:+ b) +:+ c = a +:+ (b +:+ c).
Proof.
  induction a as [| x a IH]; [reflexivity |].
  change ((String x a +:+ b) +:+ c) with (String x ((a +:+ b) +:+ c)).
  now rewrite IH.
Qed.

Lemma unchars_cons (p : string) (l : list string) :
  Py.unchars (p :: l) = p +:+ Py.unchars l.
Proof. reflexivity. Qed.

Lemma unchars_app (l1 l2 : list string) :
  Py.unchars (l1 ++ l2) = Py.unchars l1 +:+ Py.unchars l2.
Proof.
  induction l1 as [| p l1 IH]; [reflexivity |].
  rewrite <- app_comm_cons, !unchars_cons, IH. now rewrite append_assoc.
Qed.


Lemma chars_cons_nonempty (c : ascii) (rest : string) : Py.chars (String c rest) <> [].
Proof.
  simpl. destruct (Py.starts_fresh rest); [discriminate |].
  destruct (Py.chars rest); discriminate.
Qed.

Lemma unchars_chars (s : string) : Py.unchars (Py.chars s) = s.
Proof.
  induction s as [| c s IH]; [reflexivity |].
  cbn [Py.chars]. destruct (Py.starts_fresh s).
  - rewrite unchars_cons, IH. reflexivity.
  - destruct (Py.chars s) as [| p more] eqn:E.
    + destruct s; [reflexivity |]. now apply chars_cons_nonempty in E.
    + rewrite unchars_cons in *.
      change (String c p +:+ Py.unchars more) with (String c (p +:+ Py.unchars more)).
      now rewrite IH.
Qed.

Lemma chars_nil (s : string) : Py.chars s = [] -> s = "".
Proof. destruct s; [reflexivity |]. intros H. now apply chars_cons_nonempty in H. Qed.


(** A character followed by a string that begins a character. *)
Lemma chars_char_app (p s : string) :
  is_char p = true -> Py.starts_fresh s = true ->
  Py.chars (p +:+ s) = p :: Py.chars s.
Proof.
  destruct p as [| c k]; [discriminate |]. simpl is_char.
  revert c. induction k as [| d k IH]; intros c Hk Hs.
  - change (String c "" +:+ s) with (String c s). cbn [Py.chars]. now rewrite Hs.
  - cbn [only_continuation] in Hk. apply andb_true_iff in Hk as [Hd Hk].
    change (String c (String d k) +:+ s) with (String c (String d k +:+ s)).
    cbn [Py.chars].
    change (Py.starts_fresh (String d k +:+ s)) with (negb (Py.is_continuation d)).
    rewrite Hd. cbn [negb]. now rewrite (IH d Hk Hs).
Qed.

Lemma chars_head (c : ascii) (rest : string) :
  exists k more, Py.chars (String c rest) = String c k :: more.
Proof.
  cbn [Py.chars]. destruct (Py.starts_fresh rest); [eauto |].
  destruct (Py.chars rest); eauto.
Qed.

Lemma segmented_chars (s : string) : segmented (Py.chars s).
Proof.
  induction s as [| c s [IH1 IH2]]; [split; constructor |].
  cbn [Py.chars]. destruct (Py.starts_fresh s) eqn:Hs.
  - split; [constructor; [reflexivity | exact IH1] |].
    simpl. destruct s as [| d s]; [constructor |].
    destruct (chars_head d s) as (k & more & E). rewrite E in *.
    constructor; [exact Hs | exact IH2].
  - destruct s as [| d s]; [discriminate |].
    destruct (chars_head d s) as (k & more & E). rewrite E in *.
    apply Forall_cons in IH1 as [Hk Hmore]. simpl in IH2.
    split; [constructor; [| exact Hmore] | exact IH2].
    simpl in *. apply negb_false_iff in Hs. now rewrite Hs.
Qed.

Lemma segmented_tail (p : string) (l : list string) :
  segmented (p :: l) -> segmented l.
Proof.
  intros [H1 H2]. apply Forall_cons in H1 as [_ H1]. simpl in H2.
  split; [exact H1 |]. destruct l; [constructor |].
  apply Forall_cons in H2 as [_ H2]. exact H2.
Qed.

Lemma starts_fresh_unchars (l : list string) :
  Forall (fun ch => is_char ch = true) l ->
  Forall (fun ch => Py.starts_fresh ch = true) l ->
  Py.starts_fresh (Py.unchars l) = true.
Proof.
  intros H1 H2. destruct l as [| p l]; [reflexivity |].
  apply Forall_cons in H1 as [Hp _]. apply Forall_cons in H2 as [Hf _].
  destruct p; [discriminate |]. exact Hf.
Qed.

Lemma chars_unchars (l : list string) : segmented l -> Py.chars (Py.unchars l) = l.
Proof.
  induction l as [| p l IH]; intros Hseg; [reflexivity |].
  pose proof (segmented_tail _ _ Hseg) as Htail.
  destruct Hseg as [H1 H2]. apply Forall_cons in H1 as [Hp Hl]. simpl in H2.
  rewrite unchars_cons, chars_char_app; [now rewrite IH | exact Hp |].
  now apply starts_fresh_unchars.
Qed.

Lemma segmented_drop (n : nat) (l : list string) : segmented l -> segmented (drop n l).
Proof.
  revert l. induction n as [| n IH]; intros l H; [now rewrite drop_0 |].
  destruct l as [| p l]; [exact H |]. simpl. apply IH. now apply segmented_tail in H.
Qed.

Lemma segmented_take (n : nat) (l : list string) : segmented l -> segmented (take n l).
Proof.
  intros [H1 H2]. split; [now apply Forall_take |].
  destruct n as [| n]; [constructor |]. destruct l as [| p l]; [constructor |].
  simpl in *. now apply Forall_take.
Qed.

Lemma lstrip_chars_drop (l : list string) : exists k, Py.lstrip_chars l = drop k l.
Proof.
  induction l as [| p l [k IH]]; [now exists 0 |].
  simpl. destruct (Py.isspace p); [now exists (S k) | now exists 0].
Qed.

Lemma rstrip_chars_take (l : list string) :
  exists k, Py.rstrip_chars l = take k l /\
            Forall (fun ch => Py.isspace ch = true) (drop k l).
Proof.
  induction l as [| p l (k & IH & Hd)]; [exists 0; split; [reflexivity | constructor] |].
  simpl. destruct (Py.rstrip_chars l) as [| q kept] eqn:E.
  - destruct (Py.isspace p) eqn:Hp.
    + exists 0. split; [reflexivity |]. rewrite drop_0. constructor; [exact Hp |].
      destruct k; [now rewrite drop_0 in Hd |].
      destruct l; [constructor | discriminate].
    + exists 1. split; [reflexivity |]. simpl. rewrite drop_0.
      destruct k; [now rewrite drop_0 in Hd |].
      destruct l; [constructor | discriminate].
  - exists (S k). simpl. split; [now rewrite IH | exact Hd].
Qed.

Lemma segmented_lstrip (l : list string) : segmented l -> segmented (Py.lstrip_chars l).
Proof.
  intros H. destruct (lstrip_chars_drop l) as [k ->]. now apply segmented_drop.
Qed.

Lemma segmented_rstrip (l : list string) : segmented l -> segmented (Py.rstrip_chars l).
Proof.
  intros H. destruct (rstrip_chars_take l) as (k & -> & _). now apply segmented_take.
Qed.

Lemma chars_lstrip (s : string) : Py.chars (Py.lstrip s) = Py.lstrip_chars (Py.chars s).
Proof. apply chars_unchars, segmented_lstrip, segmented_chars. Qed.

Lemma chars_rstrip (s : string) : Py.chars (Py.rstrip s) = Py.rstrip_chars (Py.chars s).
Proof. apply chars_unchars, segmented_rstrip, segmented_chars. Qed.

Lemma chars_strip (s : string) :
  Py.chars (Py.strip s) = Py.rstrip_chars (Py.lstrip_chars (Py.chars s)).
Proof. unfold Py.strip. now rewrite chars_rstrip, chars_lstrip. Qed.

Lemma chars_slice_from (n : nat) (s : string) :
  Py.chars (Py.slice_from n s) = drop n (Py.chars s).
Proof. apply chars_unchars, segmented_drop, segmented_chars. Qed.

Lemma chars_slice_to (n : nat) (s : string) :
  Py.chars (Py.slice_to n s) = take n (Py.chars s).
Proof. apply chars_unchars, segmented_take, segmented_chars. Qed.

Lemma len_slice_to (n : nat) (s : string) :
  Py.len (Py.slice_to n s) = Nat.min n (Py.len s).
Proof. unfold Py.len. rewrite chars_slice_to. apply length_take. Qed.

Lemma slice_split (n : nat) (s : string) :
  s = Py.slice_to n s +:+ Py.slice_from n s.
Proof.
  unfold Py.slice_to, Py.slice_from.
  now rewrite <- unchars_app, take_drop, unchars_chars.
Qed.

(** ** Strip on lists of characters *)

Lemma lstrip_rstrip_chars (l : list string) :
  Py.lstrip_chars (Py.rstrip_chars l) = Py.rstrip_chars (Py.lstrip_chars l).
Proof.
  induction l as [| c l IH]; [reflexivity |].
  cbn [Py.rstrip_chars Py.lstrip_chars].
  destruct (Py.isspace c) eqn:Hc.
  - rewrite <- IH. destruct (Py.rstrip_chars l) as [| c' kept]; [reflexivity |].
    cbn [Py.lstrip_chars]. now rewrite Hc.
  - cbn [Py.rstrip_chars].
    destruct (Py.rstrip_chars l) as [| c' kept]; cbn [Py.lstrip_chars]; now rewrite Hc.
Qed.

Lemma rstrip_rstrip_chars (l : list string) :
  Py.rstrip_chars (Py.rstrip_chars l) = Py.rstrip_chars l.
Proof.
  induction l as [| c l IH]; [reflexivity |].
  cbn [Py.rstrip_chars].
  destruct (Py.rstrip_chars l) as [| c' kept] eqn:E.
  - destruct (Py.isspace c) eqn:Hc; [reflexivity |].
    cbn [Py.rstrip_chars]. now rewrite Hc.
  - cbn [Py.rstrip_chars] in *. now rewrite IH.
Qed.

Lemma drop_rstrip_chars (n : nat) : forall l,
  n <= length (Py.rstrip_chars l) ->
  drop n (Py.rstrip_chars l) = Py.rstrip_chars (drop n l).
Proof.
  induction n as [| n IH]; intros l Hn; [reflexivity |].
  destruct l as [| c l]; [reflexivity |].
  cbn [Py.rstrip_chars drop] in *.
  destruct (Py.rstrip_chars l) as [| c' kept] eqn:E.
  - destruct (Py.isspace c); simpl in Hn; [lia |].
    assert (n = 0) by lia. subst n. rewrite drop_0, E. reflexivity.
  - cbn [drop]. rewrite <- E. apply IH. rewrite E. simpl in *. lia.
Qed.

Lemma lstrip_rstrip (s : string) :
  Py.lstrip (Py.rstrip s) = Py.rstrip (Py.lstrip s).
Proof.
  unfold Py.lstrip at 1. unfold Py.rstrip at 2.
  now rewrite chars_rstrip, chars_lstrip, lstrip_rstrip_chars.
Qed.

Lemma rstrip_rstrip (s : string) : Py.rstrip (Py.rstrip s) = Py.rstrip s.
Proof.
  unfold Py.rstrip at 1. rewrite chars_rstrip, rstrip_rstrip_chars. reflexivity.
Qed.

Lemma strip_rstrip (s : string) : Py.strip (Py.rstrip s) = Py.strip s.
Proof.
  unfold Py.strip. now rewrite lstrip_rstrip, rstrip_rstrip.
Qed.

Lemma slice_from_rstrip (n : nat) : forall s,
  n <= Py.len (Py.rstrip s) ->
  Py.slice_from n (Py.rstrip s) = Py.rstrip (Py.slice_from n s).
Proof.
  intros s Hn. unfold Py.len in Hn. rewrite chars_rstrip in Hn.
  unfold Py.slice_from at 1. unfold Py.rstrip at 2.
  now rewrite chars_rstrip, chars_slice_from, drop_rstrip_chars.
Qed.

(** ** Lower case *)

Lemma is_continuation_lower_char (c : ascii) :
  Py.is_continuation (Py.lower_char c) = Py.is_continuation c.
Proof. destruct c as [[] [] [] [] [] [] [] []]; reflexivity. Qed.

Lemma starts_fresh_lower (s : string) :
  Py.starts_fresh (Py.lower s) = Py.starts_fresh s.
Proof.
  destruct s as [| c s]; [reflexivity |].
  simpl. now rewrite is_continuation_lower_char.
Qed.

Lemma chars_lower (s : string) : Py.chars (Py.lower s) = map Py.lower (Py.chars s).
Proof.
  induction s as [| c s IH]; [reflexivity |].
  cbn [Py.lower Py.chars]. rewrite starts_fresh_lower, IH.
  destruct (Py.starts_fresh s); [reflexivity |].
  destruct (Py.chars s); reflexivity.
Qed.



Lemma len_lower (s : string) : Py.len (Py.lower s) = Py.len s.
Proof. unfold Py.len. now rewrite chars_lower, length_map. Qed.

Lemma lower_char_twice (c : ascii) :
  Py.lower_char (Py.lower_char c) = Py.lower_char c.
Proof. destruct c as [[] [] [] [] [] [] [] []]; reflexivity. Qed.

Lemma lower_twice (s : string) : Py.lower (Py.lower s) = Py.lower s.
Proof.
  induction s as [| c s IH]; [reflexivity |].
  cbn [Py.lower]. now rewrite lower_char_twice, IH.
Qed.

(** ** White space *)

Lemma isspace_In (ch : string) :
  Py.isspace ch = true <-> In ch whitespace_chars.
Proof.
  unfold Py.isspace. rewrite existsb_exists.
  change whitespace_chars with (map Py.utf8 Py.whitespace).
  rewrite in_map_iff. split.
  - intros (cp & Hin & Heq). apply String.eqb_eq in Heq. eauto.
  - intros (cp & Heq & Hin). exists cp. split; [exact Hin |].
    now apply String.eqb_eq.
Qed.

Lemma whitespace_checked (check : string -> bool) (ch : string) :
  forallb check whitespace_chars = true ->
  Py.isspace ch = true -> check ch = true.
Proof.
  intros Hall Hch. apply isspace_In in Hch.
  rewrite forallb_forall in Hall. now apply Hall.
Qed.

Lemma isspace_is_char (ch : string) : Py.isspace ch = true -> is_char ch = true.
Proof. now apply whitespace_checked. Qed.













(** ** Joining strings *)

Lemma starts_fresh_append (a b : string) :
  Py.starts_fresh (a +:+ b) =
    match a with EmptyString => Py.starts_fresh b | String _ _ => Py.starts_fresh a end.
Proof. destruct a; reflexivity. Qed.

Lemma chars_append (a b : string) :
  Py.starts_fresh b = true -> Py.chars (a +:+ b) = Py.chars a ++ Py.chars b.
Proof.
  intros Hb. induction a as [| c a IH]; [reflexivity |].
  change (String c a +:+ b) with (String c (a +:+ b)).
  cbn [Py.chars]. rewrite starts_fresh_append, IH.
  destruct a as [| d a].
  - rewrite Hb. reflexivity.
  - destruct (Py.starts_fresh (String d a)); [reflexivity |].
    destruct (chars_head d a) as (k & more & E). rewrite E. reflexivity.
Qed.

Lemma len_append (a b : string) :
  Py.starts_fresh b = true -> Py.len (a +:+ b) = Py.len a + Py.len b.
Proof. intros Hb. unfold Py.len. now rewrite chars_append, length_app. Qed.

(** ** Counting characters *)

Lemma length_chars_cons (c : ascii) (rest : string) :
  length (Py.chars (String c rest)) =
    if Py.starts_fresh rest then S (length (Py.chars rest))
    else length (Py.chars rest).
Proof.
  cbn [Py.chars]. destruct (Py.starts_fresh rest) eqn:E; [reflexivity |].
  destruct rest as [| d rest]; [discriminate |].
  destruct (chars_head d rest) as (k & more & ->). reflexivity.
Qed.

Lemma length_chars (s : string) :
  length (Py.chars s) =
    match s with EmptyString => 0 | String _ rest => S (count_fresh rest) end.
Proof.
  induction s as [| c s IH]; [reflexivity |].
  rewrite length_chars_cons, IH.
  destruct s as [| d s]; [reflexivity |].
  cbn [Py.starts_fresh count_fresh].
  destruct (Py.is_continuation d); reflexivity.
Qed.

Lemma len_cons (c : ascii) (rest : string) :
  Py.len (String c rest) = S (count_fresh rest).
Proof. unfold Py.len. now rewrite length_chars. Qed.

Lemma startswith_count (p : string) : forall s,
  Py.startswith s p = true -> count_fresh p <= count_fresh s.
Proof.
  induction p as [| b p IH]; intros [| a s] H; simpl in *; try lia; try discriminate.
  destruct (Ascii.eqb_spec a b) as [-> |]; [| discriminate].
  specialize (IH _ H). lia.
Qed.

Lemma startswith_len (p : string) : forall s,
  Py.startswith s p = true -> Py.len p <= Py.len s.
Proof.
  destruct p as [| b p]; intros [| a s] H; try (unfold Py.len; simpl; lia);
    try discriminate.
  rewrite !len_cons. simpl in H.
  destruct (Ascii.eqb a b); [| discriminate].
  apply startswith_count in H. lia.
Qed.

(** ** The trigger gate and white space *)





















Lemma truthy_false (s : string) : Py.truthy s = false <-> s = "".
Proof. destruct s; simpl; split; congruence. Qed.

Lemma last_n_short {A} (n : nat) (l : list A) :
  length l <= n -> Py.last_n n l = l.
Proof. intros H. unfold Py.last_n. now replace (length l - n) with 0 by lia. Qed.

Lemma length_last_n {A} (n : nat) (l : list A) :
  length (Py.last_n n l) = Nat.min n (length l).
Proof. unfold Py.last_n. rewrite length_drop. lia. Qed.

(** ** State bookkeeping *)

Lemma set_gateway_index_same (st : state) :
  set_gateway_index (gateway_index st) st = st.
Proof. now destruct st. Qed.

Lemma set_gateway_index_twice (i j : nat) (st : state) :
  set_gateway_index i (set_gateway_index j st) = set_gateway_index i st.
Proof. reflexivity. Qed.

(** ** The gateway selector *)

Section Selector.

Variable GATEWAYS : list gateway.

Lemma pick_gateway_at (st : state) (gw : gateway) :
  GATEWAYS !! gateway_index st = Some gw ->
  pick_gateway GATEWAYS st =
    (Ok gw, set_gateway_index ((gateway_index st + 1) mod length GATEWAYS) st).
Proof.
  intros H. unfold pick_gateway, bind, get, modify, ret. now rewrite H.
Qed.

Lemma pick_gateway_out_of_range (st : state) :
  length GATEWAYS <= gateway_index st ->
  pick_gateway GATEWAYS st = (Raise IndexError, st).
Proof.
  intros H. unfold pick_gateway, bind, get, raise.
  now rewrite (lookup_ge_None_2 _ _ H).
Qed.

Lemma pick_gateway_keeps_cursor_valid (st : state) :
  cursor_valid GATEWAYS st ->
  cursor_valid GATEWAYS (snd (pick_gateway GATEWAYS st)).
Proof.
  unfold cursor_valid. intros H.
  destruct (lookup_lt_is_Some_2 _ _ H) as [gw Hgw].
  rewrite (pick_gateway_at _ _ Hgw). simpl.
  apply Nat.mod_upper_bound. lia.
Qed.

(** Calls that stay within the list return the entries from the cursor
    on. *)
Lemma pick_gateways_run (n : nat) : forall st,
  gateway_index st < length GATEWAYS ->
  gateway_index st + n <= length GATEWAYS ->
  pick_gateways GATEWAYS n st =
    (Ok (take n (drop (gateway_index st) GATEWAYS)),
     set_gateway_index ((gateway_index st + n) mod length GATEWAYS) st).
Proof.
  induction n as [| n IH]; intros st Hlt Hle.
  - simpl. unfold ret. rewrite Nat.add_0_r, Nat.mod_small by lia.
    now rewrite set_gateway_index_same.
  - destruct (lookup_lt_is_Some_2 _ _ Hlt) as [gw Hgw].
    cbn [pick_gateways]. unfold bind at 1.
    rewrite (pick_gateway_at _ _ Hgw).
    rewrite (drop_S _ _ _ Hgw). cbn [take].
    destruct (decide (gateway_index st + 1 = length GATEWAYS)) as [Hend | Hmid].
    + assert (n = 0) by lia. subst n. simpl.
      unfold bind, ret. simpl. rewrite take_0. reflexivity.
    + unfold bind at 1. rewrite IH; simpl.
      * rewrite (Nat.mod_small (gateway_index st + 1)) by lia.
        unfold ret. rewrite set_gateway_index_twice.
        replace (gateway_index st + 1 + n) with (gateway_index st + S n) by lia.
        now replace (gateway_index st + 1) with (S (gateway_index st)) by lia.
      * rewrite Nat.mod_small; lia.
      * rewrite Nat.mod_small; lia.
Qed.

Lemma pick_gateways_app (n m : nat) : forall st,
  pick_gateways GATEWAYS (n + m) st =
    match pick_gateways GATEWAYS n st with
    | (Ok l, st') =>
        match pick_gateways GATEWAYS m st' with
        | (Ok l', st'') => (Ok (l ++ l'), st'')
        | (Raise e, st'') => (Raise e, st'')
        end
    | (Raise e, st') => (Raise e, st')
    end.
Proof.
  induction n as [| n IH]; intros st.
  - simpl. unfold ret. destruct (pick_gateways GATEWAYS m st) as [[l | e] st']; reflexivity.
  - cbn [Nat.add pick_gateways]. unfold bind at 1 3.
    destruct (pick_gateway GATEWAYS st) as [[gw | e] st1]; [| reflexivity].
    unfold bind at 1 2. rewrite IH.
    destruct (pick_gateways GATEWAYS n st1) as [[l | e] st2]; [| reflexivity].
    unfold ret.
    destruct (pick_gateways GATEWAYS m st2) as [[l' | e] st3]; reflexivity.
Qed.

Lemma pick_gateways_total (k : nat) : forall st,
  cursor_valid GATEWAYS st ->
  exists l st', pick_gateways GATEWAYS k st = (Ok l, st').
Proof.
  induction k as [| k IH]; intros st Hst.
  - now exists [], st.
  - pose proof (pick_gateway_keeps_cursor_valid _ Hst) as Hnext.
    destruct (lookup_lt_is_Some_2 _ _ Hst) as [gw Hgw].
    cbn [pick_gateways]. unfold bind at 1.
    rewrite (pick_gateway_at _ _ Hgw) in *. simpl in Hnext.
    destruct (IH _ Hnext) as (l & st' & Hl).
    exists (gw :: l), st'. unfold bind, ret. now rewrite Hl.
Qed.

(** A full round from any cursor position ends where it began. *)
Lemma pick_gateways_round (st : state) :
  cursor_valid GATEWAYS st ->
  pick_gateways GATEWAYS (length GATEWAYS) st =
    (Ok (rotate (gateway_index st) GATEWAYS), st).
Proof.
  unfold cursor_valid. intros Hst.
  set (i := gateway_index st) in *.
  replace (length GATEWAYS) with ((length GATEWAYS - i) + i) at 1 by lia.
  rewrite pick_gateways_app.
  rewrite pick_gateways_run by (fold i; lia). fold i.
  replace (i + (length GATEWAYS - i)) with (length GATEWAYS) by lia.
  rewrite Nat.Div0.mod_same.
  rewrite pick_gateways_run by (simpl; lia). simpl gateway_index.
  rewrite set_gateway_index_twice, drop_0, Nat.add_0_l.
  rewrite Nat.mod_small by lia.
  unfold i at 4. rewrite set_gateway_index_same.
  rewrite take_ge by (rewrite length_drop; lia).
  unfold rotate. now rewrite Nat.mod_small by lia.
Qed.

End Selector.

(** C7. From any cursor position [i] inside the list of [N] gateways: one
    call of [pick_gateway] returns the entry at the cursor and moves the
    cursor to [(i + 1) mod N]; [N] calls return the list rotated to start
    at [i] (the list itself when [i = 0]), which holds every entry once,
    and leave the state as it was; so the calls after the [N]th return
    what the first ones did. *)
Theorem pick_gateway_round_robin (GATEWAYS : list gateway) (st : state) :
  gateway_index st < length GATEWAYS ->
  let n := length GATEWAYS in
  let i := gateway_index st in
  (exists gw,
      GATEWAYS !! i = Some gw /\
      pick_gateway GATEWAYS st = (Ok gw, set_gateway_index ((i + 1) mod n) st)) /\
  pick_gateways GATEWAYS n st = (Ok (rotate i GATEWAYS), st) /\
  rotate i GATEWAYS ≡ₚ GATEWAYS /\
  rotate 0 GATEWAYS = GATEWAYS /\
  (forall k, exists later st',
      pick_gateways GATEWAYS k st = (Ok later, st') /\
      pick_gateways GATEWAYS (n + k) st = (Ok (rotate i GATEWAYS ++ later), st')).
Proof.
  intros Hst n i. repeat split.
  - destruct (lookup_lt_is_Some_2 _ _ Hst) as [gw Hgw].
    exists gw. split; [exact Hgw |]. now apply pick_gateway_at.
  - now apply pick_gateways_round.
  - unfold rotate. rewrite Permutation_app_comm. now rewrite take_drop.
  - unfold rotate. rewrite Nat.Div0.mod_0_l. simpl. rewrite drop_0. apply app_nil_r.
  - intros k. destruct (pick_gateways_total GATEWAYS k st Hst) as (later & st' & Hk).
    exists later, st'. split; [exact Hk |].
    subst n. rewrite pick_gateways_app, pick_gateways_round by exact Hst.
    now rewrite Hk.
Qed.

(** ** The timer callback *)

Section Callback.

Variable GATEWAYS : list gateway.

Lemma send_sms_at (to message : string) (st : state) (gw : gateway) :
  GATEWAYS !! gateway_index st = Some gw ->
  send_sms GATEWAYS to message st =
    (Ok tt,
     set_outbox (outbox st ++ [Sms gw to message])
       (set_gateway_index ((gateway_index st + 1) mod length GATEWAYS) st)).
Proof.
  intros H. unfold send_sms, bind. rewrite (pick_gateway_at _ _ _ H).
  reflexivity.
Qed.

Lemma send_pending_reply_absent (s : string) (st : state) :
  pending_replies st !! s = None ->
  send_pending_reply GATEWAYS s st = (Ok tt, popped s st).
Proof.
  intros H. unfold send_pending_reply, bind, get, modify, ret. simpl.
  now rewrite H.
Qed.

Lemma send_pending_reply_empty (s : string) (st : state) :
  pending_replies st !! s = Some "" ->
  send_pending_reply GATEWAYS s st = (Ok tt, popped s st).
Proof.
  intros H. unfold send_pending_reply, bind, get, modify, ret. simpl.
  now rewrite H.
Qed.

Lemma send_pending_reply_text (s reply : string) (st : state) :
  pending_replies st !! s = Some reply -> Py.truthy reply = true ->
  send_pending_reply GATEWAYS s st = send_sms GATEWAYS s reply (popped s st).
Proof.
  intros H Hr. unfold send_pending_reply, bind, get, modify, ret. simpl.
  now rewrite H, Hr.
Qed.

End Callback.

(** C8, as amended. With the cursor inside the gateway list, the callback
    [send_pending_reply] returns normally, takes the sender's entry out of
    [pending_replies], and posts exactly that reply when there was one and
    it is not the empty string; with no entry (or an empty reply) nothing
    is posted.  A second run of the callback finds no entry and posts
    nothing, so no reply is posted twice. *)
Theorem send_pending_reply_takes_once (GATEWAYS : list gateway) (s : string)
    (st : state) :
  gateway_index st < length GATEWAYS ->
  exists gw st',
    GATEWAYS !! gateway_index st = Some gw /\
    send_pending_reply GATEWAYS s st = (Ok tt, st') /\
    pending_replies st' = delete s (pending_replies st) /\
    outbox st' =
      outbox st ++
        match pending_replies st !! s with
        | Some reply => if Py.truthy reply then [Sms gw s reply] else []
        | None => []
        end /\
    exists st'',
      send_pending_reply GATEWAYS s st' = (Ok tt, st'') /\
      outbox st'' = outbox st'.
Proof.
  intros Hst. destruct (lookup_lt_is_Some_2 _ _ Hst) as [gw Hgw].
  exists gw.
  assert (Hagain : forall st1, pending_replies st1 = delete s (pending_replies st) ->
            exists st'', send_pending_reply GATEWAYS s st1 = (Ok tt, st'') /\
                         outbox st'' = outbox st1).
  { intros st1 H1. exists (popped s st1). split; [| reflexivity].
    apply send_pending_reply_absent. rewrite H1. apply lookup_delete_eq. }
  destruct (pending_replies st !! s) as [reply |] eqn:Hp.
  - destruct (Py.truthy reply) eqn:Hr.
    + eexists. split; [exact Hgw |]. split.
      * rewrite (send_pending_reply_text _ _ _ _ Hp Hr).
        apply send_sms_at. exact Hgw.
      * split; [reflexivity |]. split; [reflexivity |]. now apply Hagain.
    + apply truthy_false in Hr. subst reply.
      exists (popped s st). split; [exact Hgw |]. split.
      * now apply send_pending_reply_empty.
      * split; [reflexivity |]. split; [now rewrite app_nil_r |]. now apply Hagain.
  - exists (popped s st). split; [exact Hgw |]. split.
    + now apply send_pending_reply_absent.
    + split; [reflexivity |]. split; [now rewrite app_nil_r |]. now apply Hagain.
Qed.

(** C9. When the reply held for a sender is the empty string, the callback
    takes the entry out of [pending_replies] (and the sender out of
    [send_timers]) and changes nothing else: no gateway is picked and
    nothing is posted, exactly as when there is no entry at all. *)
Theorem empty_reply_is_dropped (GATEWAYS : list gateway) (s : string)
    (st : state) :
  pending_replies st !! s = Some "" ->
  send_pending_reply GATEWAYS s st = (Ok tt, popped s st) /\
  pending_replies (popped s st) !! s = None /\
  outbox (popped s st) = outbox st /\
  gateway_index (popped s st) = gateway_index st.
Proof.
  intros H. split; [now apply send_pending_reply_empty |].
  simpl. split; [apply lookup_delete_eq | split; reflexivity].
Qed.

(** ** The model query *)

Lemma context_of_insert (s : string) (l : list turn) (st : state) :
  context_of s (set_user_contexts (<[s := l]> (user_contexts st)) st) = l.
Proof. unfold context_of. simpl. now rewrite lookup_insert_eq. Qed.

Lemma context_of_asked (s prompt : string) (st : state) :
  context_of s (asked s prompt st) =
    Py.last_n MAX_CONTEXT_LEN (context_of s st ++ [Turn "user" prompt]).
Proof. apply context_of_insert. Qed.

Lemma context_of_answered (s prompt reply : string) (st : state) :
  context_of s (answered s prompt reply st) =
    Py.last_n MAX_CONTEXT_LEN (context_of s st ++ [Turn "user" prompt])
      ++ [Turn "assistant" reply].
Proof. unfold answered. now rewrite context_of_insert, context_of_asked. Qed.

(** Lines 136-138, whichever way the test at line 137 goes. *)
Lemma question_appended (s prompt : string) (st : state) :
  let st1 := set_user_contexts
               (<[s := context_of s st ++ [Turn "user" prompt]]> (user_contexts st)) st in
  (if MAX_CONTEXT_LEN <? length (context_of s st1)
   then set_user_contexts
          (<[s := Py.last_n MAX_CONTEXT_LEN (context_of s st1)]> (user_contexts st1)) st1
   else st1) = asked s prompt st.
Proof.
  intros st1. unfold st1 at 1. rewrite context_of_insert.
  destruct (MAX_CONTEXT_LEN <? _) eqn:E.
  - unfold st1, asked. rewrite context_of_insert. simpl.
    now rewrite insert_insert_eq.
  - apply Nat.ltb_ge in E. unfold st1, asked.
    now rewrite last_n_short by exact E.
Qed.

Lemma bind_modify {B} (f : state -> state) (k : unit -> M B) (st : state) :
  bind (modify f) k st = k tt (f st).
Proof. reflexivity. Qed.

Lemma bind_get {B} (k : state -> M B) (st : state) :
  bind get k st = k st st.
Proof. reflexivity. Qed.

Lemma bind_ret {A B} (a : A) (k : A -> M B) (st : state) :
  bind (ret a) k st = k a st.
Proof. reflexivity. Qed.

Lemma bind_if_modify {B} (c : bool) (f : state -> state) (k : unit -> M B)
    (st : state) :
  bind (if c then modify f else ret tt) k st = k tt (if c then f st else st).
Proof. now destruct c. Qed.

Lemma get_deepseek_response_eq (s prompt : string) (http : http_outcome) (st : state) :
  get_deepseek_response s prompt http st =
    match http with
    | ConnectionFailed => (Raise RequestException, asked s prompt st)
    | Response status_code reply_text =>
        if (status_code =? 200)%Z then
          match reply_text with
          | None => (Raise KeyError, asked s prompt st)
          | Some text =>
              (Ok (sms_text (Py.strip text)), answered s prompt (Py.strip text) st)
          end
        else (Ok API_ERROR_REPLY, asked s prompt st)
    end.
Proof.
  unfold get_deepseek_response, context_append.
  rewrite bind_modify, bind_get, bind_if_modify.
  rewrite (question_appended s prompt st).
  destruct http as [| status_code [text |]]; try reflexivity.
  - destruct (status_code =? 200)%Z; [| reflexivity].
    rewrite bind_modify. unfold sms_text, answered, asked. simpl.
    rewrite insert_insert_eq.
    now destruct (MAX_SMS_CHARS <? Py.len (Py.strip text)).
  - now destruct (status_code =? 200)%Z.
Qed.

Lemma bind_try_except {B} (c : M string) (d : string) (k : string -> M B)
    (st : state) :
  bind (try_except c (fun _ => ret d)) k st =
    k (match fst (c st) with Ok r => r | Raise _ => d end) (snd (c st)).
Proof.
  unfold bind, try_except, ret. now destruct (c st) as [[r | e] st'].
Qed.

Lemma length_cancelled (held : option nat) (l : list Timer) :
  length (cancelled held l) = length l.
Proof. destruct held; simpl; [apply length_alter | reflexivity]. Qed.

Lemma alter_last {A} (f : A -> A) (l : list A) (x : A) :
  alter f (length l) (l ++ [x]) = l ++ [f x].
Proof.
  replace (length l) with (length l + 0) by lia.
  now rewrite alter_app_r.
Qed.

(** The worker never raises; it leaves the globals as [scheduled]
    describes. *)
Lemma process_prompt_with_delay_eq (s prompt : string) (http : http_outcome)
    (now : Q) (st : state) :
  process_prompt_with_delay s prompt http now st =
    (Ok tt, scheduled s (reply_of s prompt http st) now (queried s prompt http st)).
Proof.
  unfold process_prompt_with_delay.
  rewrite bind_try_except. fold (reply_of s prompt http st) (queried s prompt http st).
  generalize (reply_of s prompt http st) as reply.
  generalize (queried s prompt http st) as st1. intros st1 reply.
  rewrite bind_modify, bind_get. simpl send_timers.
  assert (Hcancel : forall (k : unit -> M unit) st2,
            bind (match send_timers st1 !! s with
                  | Some id => cancel id
                  | None => ret tt
                  end) k st2 =
            k tt (set_timers (cancelled (send_timers st1 !! s) (timers st2)) st2)).
  { intros k st2. destruct (send_timers st1 !! s); [reflexivity |].
    rewrite bind_ret. now destruct st2. }
  rewrite Hcancel, bind_get, bind_modify, bind_modify.
  unfold start, modify, scheduled. simpl.
  rewrite alter_last, length_cancelled. reflexivity.
Qed.

(** The worker is its model query followed by the three parts of lines
    114-121. *)
Lemma worker_in_parts (s prompt : string) (http : http_outcome) (now : Q)
    (st : state) :
  snd (process_prompt_with_delay s prompt http now st) =
    snd (worker_arm s now
           (snd (worker_cancel s
                   (snd (worker_store s (reply_of s prompt http st)
                           (queried s prompt http st)))))).
Proof.
  rewrite process_prompt_with_delay_eq.
  generalize (reply_of s prompt http st) as reply.
  generalize (queried s prompt http st) as st1. intros st1 reply.
  unfold worker_store, worker_cancel, worker_arm.
  unfold bind, get, modify, ret, cancel, start, scheduled, cancelled. cbn [fst snd].
  destruct st1 as [gi rm stm pr uc tms ob]. cbn.
  destruct (stm !! s) as [id |] eqn:Hheld; cbn.
  - rewrite alter_last, length_alter. reflexivity.
  - rewrite alter_last. reflexivity.
Qed.

(** C5. Whatever way the model query fails (the POST raises, the status is
    not 200, or the reply text cannot be read), the worker returns
    normally and the reply it stores for the sender is a fixed text:
    [API_ERROR_REPLY] for a status other than 200, [UNAVAILABLE_REPLY]
    when an exception was raised.  The sender's context is then its former
    context with the user turn appended (cut to the last ten); no
    assistant turn is added, and no other sender's context changes. *)
Theorem backend_failure_gives_fallback (s prompt : string) (http : http_outcome)
    (now : Q) (st : state) :
  is_failure http = true ->
  exists st',
    process_prompt_with_delay s prompt http now st = (Ok tt, st') /\
    pending_replies st' !! s =
      Some match http with
           | Response status_code _ =>
               if (status_code =? 200)%Z then UNAVAILABLE_REPLY else API_ERROR_REPLY
           | ConnectionFailed => UNAVAILABLE_REPLY
           end /\
    user_contexts st' =
      <[s := Py.last_n MAX_CONTEXT_LEN (context_of s st ++ [Turn "user" prompt])]>
        (user_contexts st) /\
    last (context_of s st') = Some (Turn "user" prompt).
Proof.
  intros Hfail. eexists. split; [apply process_prompt_with_delay_eq |].
  unfold reply_of, queried. rewrite get_deepseek_response_eq.
  assert (Hlast : last (context_of s (asked s prompt st)) = Some (Turn "user" prompt)).
  { rewrite context_of_asked. unfold Py.last_n.
    rewrite length_app. simpl length.
    destruct (decide (length (context_of s st) + 1 - MAX_CONTEXT_LEN
                      <= length (context_of s st))) as [Hle | Hgt].
    - rewrite drop_app_le by exact Hle. apply last_snoc.
    - unfold MAX_CONTEXT_LEN in Hgt. lia. }
  destruct http as [| status_code [text |]]; simpl in *.
  - rewrite lookup_insert_eq. auto.
  - destruct (status_code =? 200)%Z; [discriminate |].
    simpl. rewrite lookup_insert_eq. auto.
  - destruct (status_code =? 200)%Z; simpl; rewrite lookup_insert_eq; auto.
Qed.

(** C6. On a 200 response the reply is the stripped text of the body.  The
    worker stores for delivery [sms_text reply]: the reply itself when it
    has at most [MAX_SMS_CHARS] characters, and otherwise its first
    [MAX_SMS_CHARS] characters followed by the marker.  The assistant turn
    put at the end of the sender's context carries the whole reply. *)
Theorem long_reply_is_truncated (s prompt text : string) (now : Q) (st : state) :
  let reply := Py.strip text in
  let head := Py.slice_to MAX_SMS_CHARS reply in
  let st' := snd (process_prompt_with_delay s prompt (Response 200 (Some text)) now st) in
  get_deepseek_response s prompt (Response 200 (Some text)) st =
    (Ok (sms_text reply), answered s prompt reply st) /\
  pending_replies st' !! s = Some (sms_text reply) /\
  sms_text reply =
    (if Py.len reply <=? MAX_SMS_CHARS then reply else head +:+ TRUNCATED) /\
  reply = head +:+ Py.slice_from MAX_SMS_CHARS reply /\
  Py.len head = Nat.min MAX_SMS_CHARS (Py.len reply) /\
  context_of s st' =
    Py.last_n MAX_CONTEXT_LEN (context_of s st ++ [Turn "user" prompt])
      ++ [Turn "assistant" reply].
Proof.
  intros reply head st'.
  assert (Hq : get_deepseek_response s prompt (Response 200 (Some text)) st =
               (Ok (sms_text reply), answered s prompt reply st)).
  { now rewrite get_deepseek_response_eq. }
  split; [exact Hq |].
  unfold st'. rewrite process_prompt_with_delay_eq.
  unfold reply_of, queried. rewrite Hq. simpl.
  split; [apply lookup_insert_eq |].
  split.
  { unfold sms_text. rewrite Nat.ltb_antisym.
    now destruct (Py.len reply <=? MAX_SMS_CHARS). }
  split; [apply slice_split |].
  split; [apply len_slice_to |].
  apply (context_of_answered s prompt reply st).
Qed.

(** ** The context window *)

(** After the user turn is appended (lines 136-138) the context has at
    most [MAX_CONTEXT_LEN] turns. *)
Lemma context_bounded_after_question (s prompt : string) (st : state) :
  length (context_of s (asked s prompt st)) <= MAX_CONTEXT_LEN.
Proof. rewrite context_of_asked, length_last_n. lia. Qed.

(** On a context of exactly [MAX_CONTEXT_LEN] turns the user append drops
    the oldest turn and keeps the others in order. *)
Lemma full_context_drops_oldest (s prompt : string) (st : state) :
  length (context_of s st) = MAX_CONTEXT_LEN ->
  context_of s (asked s prompt st) =
    drop 1 (context_of s st) ++ [Turn "user" prompt].
Proof.
  intros H. rewrite context_of_asked. unfold Py.last_n.
  rewrite length_app, H. simpl.
  rewrite drop_app_le by (rewrite H; unfold MAX_CONTEXT_LEN; lia).
  reflexivity.
Qed.

(** The assistant turn (line 150) is appended without a cut. *)
Lemma context_after_answer (s prompt reply : string) (st : state) :
  length (context_of s (answered s prompt reply st)) =
    S (Nat.min MAX_CONTEXT_LEN (S (length (context_of s st)))).
Proof.
  rewrite context_of_answered, length_app, length_last_n, length_app.
  simpl length. lia.
Qed.

(** C1, at the failing input. Six questions of one sender, each answered
    with status 200, leave eleven turns in the sender's context: the cut
    to [MAX_CONTEXT_LEN] turns is made after the user turn is appended and
    not after the assistant turn.  The seventh question then drops the two
    oldest turns at once. *)
Theorem context_exceeds_cap_after_answer :
  let st := exchanges 6 Sample.sender "hi" "ok" initial_state in
  length (context_of Sample.sender st) = 11 /\
  MAX_CONTEXT_LEN < length (context_of Sample.sender st) /\
  context_of Sample.sender (asked Sample.sender "again" st) =
    drop 2 (context_of Sample.sender st) ++ [Turn "user" "again"].
Proof. vm_compute. repeat split; lia. Qed.

(** ** The inbound route *)

Section Inbound.

Variable WHITELIST : gset string.

Lemma incoming_unauthorized (s : string) (content : string) (t1 t2 : Q) (st : state) :
  s ∉ WHITELIST ->
  incoming WHITELIST (Some s) content t1 t2 st = (UNAUTHORIZED, None, st).
Proof.
  intros H. unfold incoming. rewrite (bool_decide_eq_false_2 _ H).
  now rewrite orb_true_r.
Qed.

Lemma incoming_ignored (s : string) (content : string) (t1 t2 : Q) (st : state) :
  s ∈ WHITELIST -> s <> "" -> passes_gate content = false ->
  incoming WHITELIST (Some s) content t1 t2 st = (IGNORED, None, st).
Proof.
  intros H Hs Hg. unfold incoming. rewrite (bool_decide_eq_true_2 _ H), Hg.
  destruct (Py.truthy s) eqn:E; [reflexivity |].
  now apply truthy_false in E.
Qed.

(** Past the allow-list and the trigger gate, lines 88-100. *)
Lemma incoming_gated (s : string) (content : string) (t1 t2 : Q) (st : state) :
  s ∈ WHITELIST -> s <> "" -> passes_gate content = true ->
  incoming WHITELIST (Some s) content t1 t2 st =
    match recent_messages st !! s with
    | Some (h, t0) =>
        if bool_decide (SHA256.hexdigest content = h)
           && Py.lt (t1 - t0) REPEAT_TIMEOUT
        then (DUPLICATE_IGNORED, None, st)
        else (OK, Some (s, prompt_of content),
              set_recent_messages
                (<[s := (SHA256.hexdigest content, t2)]> (recent_messages st)) st)
    | None =>
        (OK, Some (s, prompt_of content),
         set_recent_messages
           (<[s := (SHA256.hexdigest content, t2)]> (recent_messages st)) st)
    end.
Proof.
  intros H Hs Hg. unfold incoming. rewrite (bool_decide_eq_true_2 _ H), Hg.
  destruct (Py.truthy s) eqn:E; [| now apply truthy_false in E].
  simpl. destruct (recent_messages st !! s) as [[h t0] |].
  - destruct (decide (SHA256.hexdigest content = h)) as [Heq | Hne].
    + rewrite (bool_decide_eq_true_2 _ Heq).
      rewrite bool_decide_eq_true_2 by now rewrite Heq.
      reflexivity.
    + rewrite (bool_decide_eq_false_2 _ Hne).
      rewrite bool_decide_eq_false_2 by congruence.
      reflexivity.
  - rewrite bool_decide_eq_false_2 by discriminate. reflexivity.
Qed.

End Inbound.

(** C2. For an allow-listed sender and a text that passes the trigger
    gate, [incoming] answers "Duplicate ignored" exactly when
    [recent_messages] holds, for this sender, the SHA-256 digest of the
    text with a time less than [REPEAT_TIMEOUT] before the clock reading
    of the test.  A rejection leaves all globals as they were.  Every
    other message is accepted, first message of a sender included, and the
    sender's record becomes the digest with the clock reading of the
    store. *)
Theorem dedup_guard (WHITELIST : gset string) (s content : string)
    (clock_test clock_store : Q) (st : state) :
  s ∈ WHITELIST -> s <> "" -> passes_gate content = true ->
  let fingerprint := SHA256.hexdigest content in
  let seen_recently :=
    exists t0, recent_messages st !! s = Some (fingerprint, t0) /\
               (clock_test - t0 < REPEAT_TIMEOUT)%Q in
  let outcome := incoming WHITELIST (Some s) content clock_test clock_store st in
  (fst (fst outcome) = DUPLICATE_IGNORED <-> seen_recently) /\
  (seen_recently -> outcome = (DUPLICATE_IGNORED, None, st)) /\
  (~ seen_recently ->
     outcome = (OK, Some (s, prompt_of content),
                set_recent_messages
                  (<[s := (fingerprint, clock_store)]> (recent_messages st)) st)).
Proof.
  intros H Hs Hg fingerprint seen_recently outcome.
  unfold outcome. rewrite (incoming_gated _ _ _ _ _ _ H Hs Hg).
  fold fingerprint. unfold seen_recently.
  destruct (recent_messages st !! s) as [[h t0] |].
  - destruct (decide (fingerprint = h)) as [Heq | Hne].
    + rewrite (bool_decide_eq_true_2 _ Heq). simpl.
      destruct (Py.lt (clock_test - t0) REPEAT_TIMEOUT) eqn:E.
      * assert (Hseen : exists t, Some (h, t0) = Some (fingerprint, t) /\
                                  (clock_test - t < REPEAT_TIMEOUT)%Q).
        { exists t0. split; [now rewrite Heq | now apply lt_true]. }
        simpl. split; [tauto |]. split; [reflexivity | tauto].
      * assert (Hnot : ~ exists t, Some (h, t0) = Some (fingerprint, t) /\
                                   (clock_test - t < REPEAT_TIMEOUT)%Q).
        { intros (t & Ht & Hlt). injection Ht as _ <-.
          apply lt_true in Hlt. congruence. }
        simpl. split; [split; [discriminate | tauto] |].
        split; [tauto | reflexivity].
    + rewrite (bool_decide_eq_false_2 _ Hne). simpl.
      assert (Hnot : ~ exists t, Some (h, t0) = Some (fingerprint, t) /\
                                 (clock_test - t < REPEAT_TIMEOUT)%Q).
      { intros (t & Ht & _). congruence. }
      split; [split; [discriminate | tauto] |].
      split; [tauto | reflexivity].
  - assert (Hnot : ~ exists t, None = Some (fingerprint, t) /\
                               (clock_test - t < REPEAT_TIMEOUT)%Q).
    { intros (t & Ht & _). discriminate. }
    simpl. split; [split; [discriminate | tauto] |].
    split; [tauto | reflexivity].
Qed.

(** ** The trigger gate and the prompt *)

(** For an allow-listed sender the answer is "Ignored" exactly when the
    trimmed, lower-cased text does not start with the lower-cased
    prefix. *)
Lemma gate_decides_ignored (WHITELIST : gset string) (s content : string)
    (t1 t2 : Q) (st : state) :
  s ∈ WHITELIST -> s <> "" ->
  (fst (fst (incoming WHITELIST (Some s) content t1 t2 st)) = IGNORED
   <-> Py.startswith (Py.lower (Py.strip content)) (Py.lower TRIGGER_PREFIX) = false).
Proof.
  intros H Hs. fold (passes_gate content).
  destruct (passes_gate content) eqn:Hg.
  - rewrite (incoming_gated _ _ _ _ _ _ H Hs Hg).
    split; [| discriminate].
    destruct (recent_messages st !! s) as [[h t0] |]; [| discriminate].
    destruct (_ && _); discriminate.
  - rewrite (incoming_ignored _ _ _ _ _ _ H Hs Hg). simpl. tauto.
Qed.

(** With no white space in front of the text, the prompt of line 96 is
    the prompt of the trimmed text. *)
Lemma prompt_without_leading_space (content : string) :
  Py.lstrip content = content -> passes_gate content = true ->
  prompt_of content = spec_prompt content.
Proof.
  intros Hl Hg. unfold prompt_of, spec_prompt.
  unfold Py.strip at 3. rewrite Hl.
  rewrite slice_from_rstrip, strip_rstrip; [reflexivity |].
  apply startswith_len in Hg. rewrite len_lower in Hg.
  unfold Py.strip in Hg. rewrite Hl in Hg.
  now rewrite len_lower in Hg.
Qed.

(** C3, at the failing input. The text [" Chat hello"] of an allow-listed
    sender passes the gate, which looks at the trimmed text; the prompt is
    then cut from the untrimmed text, so the worker is started with
    ["t hello"] and not with ["hello"]. *)
Theorem prompt_cut_from_untrimmed_text :
  let content := " Chat hello" in
  passes_gate content = true /\
  spec_prompt content = "hello" /\
  fst (incoming Sample.WHITELIST (Some Sample.sender) content 0 0 initial_state) =
    (OK, Some (Sample.sender, "t hello")) /\
  prompt_of content <> spec_prompt content.
Proof.
  vm_compute. repeat split; discriminate.
Qed.

(** ** Fingerprints are taken from the raw text *)

(** C10. The record kept for a sender holds the SHA-256 digest of the raw
    text of the last accepted message.  So when two successive messages
    of an allow-listed sender pass the gate and give the same prompt,
    but their raw texts have different digests (the case for different
    texts, short of a SHA-256 collision), the second is accepted whatever
    the clock readings: it is answered "OK", its worker is started with
    that prompt, and the record becomes its digest. *)
Theorem distinct_raw_text_not_duplicate (WHITELIST : gset string)
    (s first second : string) (t1 t1' t2 t2' : Q) (st : state) :
  s ∈ WHITELIST -> s <> "" ->
  passes_gate first = true -> passes_gate second = true ->
  prompt_of first = prompt_of second ->
  SHA256.hexdigest first <> SHA256.hexdigest second ->
  let st1 := snd (incoming WHITELIST (Some s) first t1 t1' st) in
  (exists t0, recent_messages st1 !! s = Some (SHA256.hexdigest first, t0)) /\
  incoming WHITELIST (Some s) second t2 t2' st1 =
    (OK, Some (s, prompt_of first),
     set_recent_messages
       (<[s := (SHA256.hexdigest second, t2')]> (recent_messages st1)) st1).
Proof.
  intros H Hs Hg1 Hg2 Hp Hd st1.
  assert (Hrec : exists t0, recent_messages st1 !! s = Some (SHA256.hexdigest first, t0)).
  { unfold st1. rewrite (incoming_gated _ _ _ _ _ _ H Hs Hg1).
    destruct (recent_messages st !! s) as [[h t0] |] eqn:E.
    - destruct (decide (SHA256.hexdigest first = h)) as [Heq | Hne].
      + rewrite (bool_decide_eq_true_2 _ Heq). simpl.
        destruct (Py.lt (t1 - t0) REPEAT_TIMEOUT); simpl.
        * exists t0. now rewrite E, Heq.
        * exists t1'. apply lookup_insert_eq.
      + rewrite (bool_decide_eq_false_2 _ Hne). simpl.
        exists t1'. apply lookup_insert_eq.
    - simpl. exists t1'. apply lookup_insert_eq. }
  split; [exact Hrec |].
  destruct Hrec as [t0 Hrec].
  rewrite (incoming_gated _ _ _ _ _ _ H Hs Hg2), Hrec.
  rewrite bool_decide_eq_false_2 by congruence.
  simpl. now rewrite Hp.
Qed.

(** ** Timers and the debounce *)

Section Debounce.

Variable GATEWAYS : list gateway.

Lemma send_pending_reply_effect (s : string) (st : state) :
  let st' := snd (send_pending_reply GATEWAYS s st) in
  timers st' = timers st /\
  pending_replies st' = delete s (pending_replies st) /\
  send_timers st' = delete s (send_timers st) /\
  outbox st' =
    outbox st ++ posted s (pending_replies st !! s) (GATEWAYS !! gateway_index st) /\
  (cursor_valid GATEWAYS st -> cursor_valid GATEWAYS st').
Proof.
  destruct (pending_replies st !! s) as [reply |] eqn:Hp.
  - destruct (Py.truthy reply) eqn:Hr.
    + rewrite (send_pending_reply_text _ _ _ _ Hp Hr).
      destruct (GATEWAYS !! gateway_index st) as [gw |] eqn:Hgw.
      * rewrite (send_sms_at GATEWAYS s reply (popped s st) gw) by exact Hgw.
        simpl. rewrite Hr. repeat (split; [reflexivity |]).
        unfold cursor_valid. simpl. intros H.
        apply Nat.mod_upper_bound. lia.
      * unfold send_sms, bind.
        rewrite pick_gateway_out_of_range
          by (simpl; now apply lookup_ge_None_1).
        simpl. rewrite app_nil_r. repeat (split; [reflexivity |]). tauto.
    + apply truthy_false in Hr. subst reply.
      rewrite (send_pending_reply_empty _ _ _ Hp). simpl.
      destruct (GATEWAYS !! gateway_index st);
        rewrite app_nil_r; repeat (split; [reflexivity |]); tauto.
  - rewrite (send_pending_reply_absent _ _ _ Hp). simpl.
    rewrite app_nil_r. repeat (split; [reflexivity |]). tauto.
Qed.

(** What a wake-up does: nothing, or the timer is marked as woken and,
    unless it was cancelled, its callback has run. *)
Lemma wake_effect (now : Q) (st : state) (id : nat) :
  let st' := wake GATEWAYS now st id in
  st' = st \/
  exists tm tm',
    timers st !! id = Some tm /\ due now tm = true /\
    t_woken tm' = true /\ t_args tm' = t_args tm /\
    timers st' = <[id := tm']> (timers st) /\
    (cursor_valid GATEWAYS st -> cursor_valid GATEWAYS st') /\
    ((t_finished tm = true /\
      pending_replies st' = pending_replies st /\
      send_timers st' = send_timers st /\
      outbox st' = outbox st)
     \/
     (t_finished tm = false /\
      pending_replies st' = delete (t_args tm) (pending_replies st) /\
      send_timers st' = delete (t_args tm) (send_timers st) /\
      outbox st' =
        outbox st ++ posted (t_args tm) (pending_replies st !! t_args tm)
                            (GATEWAYS !! gateway_index st))).
Proof.
  unfold wake.
  destruct (timers st !! id) as [tm |] eqn:Htm; [| now left].
  destruct (due now tm) eqn:Hdue; [| now left].
  right. exists tm.
  assert (Hw : t_woken tm = false).
  { unfold due in Hdue. destruct (t_started tm); [| discriminate].
    apply andb_true_iff in Hdue as [Hdue _]. now apply negb_true_iff in Hdue. }
  unfold Timer_run. rewrite Htm, Hw.
  destruct (t_finished tm) eqn:Hf.
  - exists (MkTimer (t_interval tm) (t_args tm) (t_started tm) true true).
    split; [reflexivity |]. split; [exact Hdue |].
    split; [reflexivity |]. split; [reflexivity |].
    split; [reflexivity |]. split; [tauto |]. left. simpl. tauto.
  - set (st1 := set_timers _ st).
    pose proof (send_pending_reply_effect (t_args tm) st1) as Heff.
    cbv zeta in Heff. destruct Heff as (Ht & Hp & Hs & Ho & Hc).
    destruct (send_pending_reply GATEWAYS (t_args tm) st1) as [[[] | e] st2];
      simpl in Ht, Hp, Hs, Ho, Hc.
    + exists (MkTimer (t_interval tm) (t_args tm) (t_started tm) true true).
      split; [reflexivity |]. split; [exact Hdue |].
      split; [reflexivity |]. split; [reflexivity |].
      split. { simpl. rewrite Ht. apply list_insert_insert_eq. }
      split; [exact Hc |]. right. simpl. tauto.
    + exists (MkTimer (t_interval tm) (t_args tm) (t_started tm) false true).
      split; [reflexivity |]. split; [exact Hdue |].
      split; [reflexivity |]. split; [reflexivity |].
      split; [exact Ht |].
      split; [exact Hc |]. right. tauto.
Qed.

End Debounce.

Lemma due_not_woken (now : Q) (tm : Timer) :
  due now tm = true -> t_woken tm = false.
Proof.
  unfold due. destruct (t_started tm); [| discriminate].
  intros H. apply andb_true_iff in H as [H _]. now apply negb_true_iff in H.
Qed.

Lemma sent_to_app (s : string) (st st' : state) (extra : list sms) :
  outbox st' = outbox st ++ extra ->
  sent_to s st' =
    sent_to s st ++ (message <$> List.filter (fun m => String.eqb (to_number m) s) extra).
Proof.
  intros H. unfold sent_to. now rewrite H, List.filter_app, fmap_app.
Qed.

Lemma posted_to_other (s s' : string) (found : option string) (gw : option gateway) :
  s' <> s ->
  List.filter (fun m => String.eqb (to_number m) s) (posted s' found gw) = [].
Proof.
  intros Hne. unfold posted.
  destruct found as [reply |], gw as [gw |]; try reflexivity.
  destruct (Py.truthy reply); [| reflexivity].
  simpl. now rewrite (proj2 (String.eqb_neq s' s) Hne).
Qed.

Lemma posted_to_same (s reply : string) (gw : gateway) :
  message <$> List.filter (fun m => String.eqb (to_number m) s)
                          (posted s (Some reply) (Some gw)) =
    if Py.truthy reply then [reply] else [].
Proof.
  unfold posted. destruct (Py.truthy reply); [| reflexivity].
  simpl. now rewrite String.eqb_refl.
Qed.

Section Elapse.

Variable GATEWAYS : list gateway.

Lemma wake_timers (now : Q) (st : state) (id : nat) :
  length (timers (wake GATEWAYS now st id)) = length (timers st) /\
  (forall j, j <> id -> timers (wake GATEWAYS now st id) !! j = timers st !! j).
Proof.
  destruct (wake_effect GATEWAYS now st id) as [-> | (tm & tm' & _ & _ & _ & _ & Ht & _)];
    [tauto |].
  rewrite Ht. split; [apply length_insert |].
  intros j Hj. now apply list_lookup_insert_ne.
Qed.

Lemma wake_cursor_valid (now : Q) (st : state) (id : nat) :
  cursor_valid GATEWAYS st -> cursor_valid GATEWAYS (wake GATEWAYS now st id).
Proof.
  destruct (wake_effect GATEWAYS now st id) as [-> | (tm & tm' & _ & _ & _ & _ & _ & Hc & _)];
    [auto | exact Hc].
Qed.

Lemma wake_registered (now : Q) (st : state) (id : nat) :
  timers_registered st -> timers_registered (wake GATEWAYS now st id).
Proof.
  intros Hreg.
  destruct (wake_effect GATEWAYS now st id)
    as [-> | (tm & tm' & Htm & Hdue & Hw & Ha & Ht & _ & Hrest)]; [exact Hreg |].
  intros id2 tm2 H2 Hlive. rewrite Ht in H2.
  destruct (decide (id2 = id)) as [-> | Hne].
  - apply list_lookup_insert_Some in H2 as [(_ & <- & _) | (? & _)]; [| congruence].
    unfold live in Hlive. rewrite Hw in Hlive.
    now rewrite andb_false_r in Hlive.
  - rewrite list_lookup_insert_ne in H2 by congruence.
    pose proof (Hreg _ _ H2 Hlive) as Hr2.
    destruct Hrest as [(_ & _ & -> & _) | (Hf & _ & -> & _)]; [exact Hr2 |].
    rewrite lookup_delete_ne; [exact Hr2 |].
    intros Heq.
    assert (Hl : live tm = true).
    { unfold live. now rewrite Hf, (due_not_woken _ _ Hdue). }
    pose proof (Hreg _ _ Htm Hl) as Hr. rewrite Heq in Hr. congruence.
Qed.

(** A wake-up that is not the callback of a live timer of [s] leaves
    what concerns [s] alone. *)
Lemma wake_quiet (now : Q) (s : string) (st : state) (id : nat) :
  (forall tm, timers st !! id = Some tm -> t_args tm = s ->
              live tm = false \/ due now tm = false) ->
  let st' := wake GATEWAYS now st id in
  pending_replies st' !! s = pending_replies st !! s /\
  send_timers st' !! s = send_timers st !! s /\
  sent_to s st' = sent_to s st.
Proof.
  intros Hq st'. unfold st'. clear st'.
  destruct (wake_effect GATEWAYS now st id)
    as [-> | (tm & tm' & Htm & Hdue & _ & _ & _ & _ & Hrest)]; [easy |].
  destruct Hrest as [(_ & -> & -> & Ho) | (Hf & -> & -> & Ho)].
  - unfold sent_to. now rewrite Ho.
  - assert (Hne : t_args tm <> s).
    { intros Heq. destruct (Hq _ Htm Heq) as [Hl | Hd]; [| congruence].
      unfold live in Hl. rewrite Hf, (due_not_woken _ _ Hdue) in Hl. discriminate. }
    rewrite !lookup_delete_ne by exact Hne.
    rewrite (sent_to_app s _ _ _ Ho), posted_to_other by exact Hne.
    simpl. now rewrite app_nil_r.
Qed.

Lemma wakes_cursor_valid (now : Q) (ids : list nat) : forall st,
  cursor_valid GATEWAYS st ->
  cursor_valid GATEWAYS (fold_left (wake GATEWAYS now) ids st).
Proof.
  induction ids as [| id ids IH]; intros st H; [exact H |].
  simpl. apply IH. now apply wake_cursor_valid.
Qed.

Lemma wakes_registered (now : Q) (ids : list nat) : forall st,
  timers_registered st ->
  timers_registered (fold_left (wake GATEWAYS now) ids st).
Proof.
  induction ids as [| id ids IH]; intros st H; [exact H |].
  simpl. apply IH. now apply wake_registered.
Qed.

Lemma wakes_timers (now : Q) (ids : list nat) : forall st,
  length (timers (fold_left (wake GATEWAYS now) ids st)) = length (timers st) /\
  (forall j, j ∉ ids ->
     timers (fold_left (wake GATEWAYS now) ids st) !! j = timers st !! j).
Proof.
  induction ids as [| id ids IH]; intros st; [tauto |].
  simpl. destruct (IH (wake GATEWAYS now st id)) as [Hlen Hsame].
  destruct (wake_timers now st id) as [Hlen1 Hsame1].
  split; [congruence |].
  intros j Hj. apply not_elem_of_cons in Hj as [Hj1 Hj2].
  rewrite Hsame by exact Hj2. now apply Hsame1.
Qed.

Lemma wakes_quiet (now : Q) (s : string) (ids : list nat) : forall st,
  NoDup ids ->
  (forall j tm, j ∈ ids -> timers st !! j = Some tm -> t_args tm = s ->
                live tm = false \/ due now tm = false) ->
  let st' := fold_left (wake GATEWAYS now) ids st in
  pending_replies st' !! s = pending_replies st !! s /\
  send_timers st' !! s = send_timers st !! s /\
  sent_to s st' = sent_to s st.
Proof.
  induction ids as [| id ids IH]; intros st Hnd Hq; [easy |].
  apply NoDup_cons in Hnd as [Hid Hnd].
  simpl.
  destruct (wake_quiet now s st id) as (Hp & Hs & Ho).
  { intros tm. apply Hq. now left. }
  destruct (IH (wake GATEWAYS now st id) Hnd) as (Hp' & Hs' & Ho').
  { intros j tm Hj Htm. apply (Hq j tm); [now right |].
    destruct (wake_timers now st id) as [_ Hsame].
    rewrite <- Hsame; [exact Htm |]. intros ->. contradiction. }
  cbv zeta in *. repeat split; congruence.
Qed.

End Elapse.

(** The model query touches the contexts only. *)
Lemma queried_keeps (s prompt : string) (http : http_outcome) (st : state) :
  exists m, queried s prompt http st = set_user_contexts m st.
Proof.
  unfold queried. rewrite get_deepseek_response_eq.
  destruct http as [| status_code [text |]]; simpl;
    try destruct (status_code =? 200)%Z; simpl; eexists; reflexivity.
Qed.

Lemma lookup_cancelled (held : option nat) (l : list Timer) (id : nat) (tm : Timer) :
  cancelled held l !! id = Some tm -> live tm = true ->
  l !! id = Some tm /\ held <> Some id.
Proof.
  destruct held as [id0 |]; simpl; [| intros H _; split; [exact H | discriminate]].
  intros H Hlive.
  destruct (decide (id0 = id)) as [-> | Hne].
  - rewrite list_lookup_alter_eq in H.
    apply fmap_Some in H as (tm0 & _ & ->). discriminate.
  - rewrite list_lookup_alter_ne in H by exact Hne.
    split; [exact H | congruence].
Qed.

Lemma scheduled_registered (s reply : string) (now : Q) (st : state) :
  timers_registered st -> timers_registered (scheduled s reply now st).
Proof.
  intros Hreg id tm Htm Hlive. simpl in *.
  apply lookup_app_Some in Htm as [Htm | [Hlen Htm]].
  - apply lookup_cancelled in Htm as [Htm Hheld]; [| exact Hlive].
    pose proof (Hreg _ _ Htm Hlive) as Hr.
    rewrite lookup_insert_ne; [exact Hr |].
    intros Heq. rewrite <- Heq in Hr. contradiction.
  - rewrite length_cancelled in Hlen, Htm.
    destruct (id - length (timers st)) as [| k] eqn:E; [| destruct k; discriminate].
    simpl in Htm. injection Htm as <-. simpl.
    rewrite lookup_insert_eq. f_equal. lia.
Qed.

Lemma NoDup_seq0 (n : nat) : NoDup (seq 0 n).
Proof. apply NoDup_ListNoDup, List.seq_NoDup. Qed.

(** What one run of the worker leaves behind for its sender. *)
Lemma worker_run (GATEWAYS : list gateway) (s prompt : string)
    (http : http_outcome) (now : Q) (st : state) :
  let st' := snd (process_prompt_with_delay s prompt http now st) in
  (timers_registered st -> timers_registered st') /\
  (cursor_valid GATEWAYS st -> cursor_valid GATEWAYS st') /\
  sent_to s st' = sent_to s st /\
  pending_replies st' !! s = Some (reply_of s prompt http st) /\
  length (timers st') = S (length (timers st)) /\
  timers st' !! length (timers st) = Some (MkTimer SEND_DELAY s (Some now) false false) /\
  send_timers st' !! s = Some (length (timers st)).
Proof.
  rewrite process_prompt_with_delay_eq. cbv zeta. unfold snd.
  destruct (queried_keeps s prompt http st) as [m ->].
  generalize (reply_of s prompt http st) as reply. intros reply.
  split; [intros H; now apply scheduled_registered |].
  split; [auto |].
  split; [reflexivity |].
  split; [apply lookup_insert_eq |].
  unfold scheduled, set_user_contexts. cbn [timers send_timers].
  split; [rewrite length_app, length_cancelled; simpl; lia |].
  split; [| apply lookup_insert_eq].
  rewrite lookup_app_r by now rewrite length_cancelled.
  now rewrite length_cancelled, Nat.sub_diag.
Qed.

(** A due, live timer of [s] found by a wake-up posts the pending reply of
    [s], unless it is empty. *)
Lemma wake_fires (GATEWAYS : list gateway) (now t0 : Q) (s reply : string)
    (st : state) (id : nat) :
  cursor_valid GATEWAYS st ->
  timers st !! id = Some (MkTimer SEND_DELAY s (Some t0) false false) ->
  (t0 + SEND_DELAY <= now)%Q ->
  pending_replies st !! s = Some reply ->
  sent_to s (wake GATEWAYS now st id) =
    sent_to s st ++ (if Py.truthy reply then [reply] else []).
Proof.
  intros Hcur Htm Hnow Hp.
  assert (Hd : due now (MkTimer SEND_DELAY s (Some t0) false false) = true).
  { unfold due, t_started, t_woken, t_interval, negb, andb.
    apply Qle_bool_iff. exact Hnow. }
  destruct (lookup_lt_is_Some_2 _ _ Hcur) as [gw Hgw].
  unfold wake. rewrite Htm, Hd. unfold Timer_run. rewrite Htm.
  unfold t_woken, t_finished, t_args.
  set (st1 := set_timers _ st).
  pose proof (send_pending_reply_effect GATEWAYS s st1) as (_ & _ & _ & Ho & _).
  change (pending_replies st1) with (pending_replies st) in Ho.
  change (gateway_index st1) with (gateway_index st) in Ho.
  change (outbox st1) with (outbox st) in Ho.
  rewrite Hp, Hgw in Ho.
  destruct (send_pending_reply GATEWAYS s st1) as [[[] | e] st2]; unfold snd in Ho.
  - rewrite <- (posted_to_same s reply gw).
    apply sent_to_app. exact Ho.
  - rewrite <- (posted_to_same s reply gw).
    apply sent_to_app. exact Ho.
Qed.


(** ** Reachable states *)

Lemma initial_state_registered : timers_registered initial_state.
Proof. intros id tm H. discriminate H. Qed.

Lemma incoming_keeps (WHITELIST : gset string) (from_number : option string)
    (content : string) (t1 t2 : Q) (st : state) :
  exists m,
    snd (incoming WHITELIST from_number content t1 t2 st) = set_recent_messages m st.
Proof.
  assert (Hsame : exists m, st = set_recent_messages m st).
  { exists (recent_messages st). now destruct st. }
  unfold incoming. destruct from_number as [s |]; [| exact Hsame].
  destruct (_ || _); [exact Hsame |].
  destruct (negb _); [exact Hsame |].
  destruct (recent_messages st !! s) as [[h t0] |];
    (destruct (_ && _); [exact Hsame | eexists; reflexivity]).
Qed.

(** In every reachable state of a server with at least one gateway, the
    cursor is inside the gateway list and every live timer is the
    registered one of its sender. *)
Lemma reachable_invariant (WHITELIST : gset string) (GATEWAYS : list gateway)
    (st : state) :
  GATEWAYS <> [] ->
  reachable WHITELIST GATEWAYS st ->
  cursor_valid GATEWAYS st /\ timers_registered st.
Proof.
  intros Hne Hr. induction Hr as [| st st' _ [Hcur Hreg] Hstep].
  - split; [| apply initial_state_registered].
    unfold cursor_valid. simpl. destruct GATEWAYS; [contradiction | simpl; lia].
  - destruct Hstep as [from_number content t1 t2 st | s prompt http now st | now id st].
    + destruct (incoming_keeps WHITELIST from_number content t1 t2 st) as [m ->].
      split; assumption.
    + destruct (worker_run GATEWAYS s prompt http now st) as (Hr1 & Hc1 & _).
      split; auto.
    + split; [now apply wake_cursor_valid | now apply wake_registered].
Qed.

(** ** Concrete runs *)


(** C4, outside the proviso on the timers.  In [Sample.stray] two runs of
    the worker have interleaved and a timer of the sender waits without
    being registered.  Two further runs, at 1 s and at 2.5 s, are each
    taken as a whole; the stray timer posts the reply of the first at 2 s
    and takes the registration of the timer of that run with it, so that
    the second run cancels nothing and both replies are posted. *)
Example stray_timer_sends_both_replies :
  let s := Sample.sender in
  let st := Sample.stray in
  let st1 := elapse Sample.GATEWAYS (5 # 2)
               (snd (process_prompt_with_delay s "one" (Response 200 (Some "first"))
                       1 st)) in
  let st2 := snd (process_prompt_with_delay s "two" (Response 200 (Some "second"))
                    (5 # 2) st1) in
  (gateway_index st < length Sample.GATEWAYS /\
   (1 <= 5 # 2)%Q /\ (5 # 2 < 1 + SEND_DELAY)%Q /\ ((5 # 2) + SEND_DELAY <= 10)%Q) /\
  (exists tm, timers st !! 0 = Some tm /\ live tm = true /\ t_args tm = s /\
              send_timers st !! s = Some 1) /\
  sent_to s st = [] /\
  sent_to s st1 = ["first"] /\
  sent_to s (elapse Sample.GATEWAYS 10 st2) = ["first"; "second"].
Proof.
  split.
  { split; [vm_compute; lia |].
    split; [vm_compute; discriminate |].
    split; [vm_compute; reflexivity | vm_compute; discriminate]. }
  split.
  { exists (MkTimer SEND_DELAY Sample.sender (Some 0%Q) false false).
    vm_compute. repeat split. }
  vm_compute. repeat split.
Qed.


(** C8, counterexample. The model answers with an empty text; when the
    sender's timer runs, the pending reply is taken out of
    [pending_replies] and nothing is posted. *)
Lemma fired_timer_drops_empty_reply :
  let s := Sample.sender in
  let st := snd (process_prompt_with_delay s "hi" (Response 200 (Some "")) 0
                   initial_state) in
  let st' := Timer_run Sample.GATEWAYS 0 st in
  pending_replies st !! s = Some "" /\
  send_pending_reply Sample.GATEWAYS s st = (Ok tt, popped s st) /\
  pending_replies st' !! s = None /\
  outbox st' = [].
Proof. vm_compute. repeat split. Qed.

(** C8, witness: the callback on the state a worker run leaves. *)
Lemma send_pending_reply_takes_once_witness :
  let s := Sample.sender in
  let st := snd (process_prompt_with_delay s "hi" (Response 200 (Some "hello")) 0
                   initial_state) in
  gateway_index st < length Sample.GATEWAYS /\
  exists gw st',
    Sample.GATEWAYS !! gateway_index st = Some gw /\
    send_pending_reply Sample.GATEWAYS s st = (Ok tt, st') /\
    pending_replies st' = delete s (pending_replies st) /\
    outbox st' =
      outbox st ++
        match pending_replies st !! s with
        | Some reply => if Py.truthy reply then [Sms gw s reply] else []
        | None => []
        end /\
    exists st'',
      send_pending_reply Sample.GATEWAYS s st' = (Ok tt, st'') /\
      outbox st'' = outbox st'.
Proof.
  intros s st.
  assert (H : gateway_index st < length Sample.GATEWAYS) by (vm_compute; lia).
  split; [exact H |].
  exact (send_pending_reply_takes_once Sample.GATEWAYS s st H).
Defined.

(** C9, witness: the model answers with blanks only, so the reply held for
    the sender is the empty string. *)
Lemma empty_reply_is_dropped_witness :
  let s := Sample.sender in
  let st := snd (process_prompt_with_delay s "hi" (Response 200 (Some "  ")) 0
                   initial_state) in
  pending_replies st !! s = Some "" /\
  send_pending_reply Sample.GATEWAYS s st = (Ok tt, popped s st) /\
  outbox (popped s st) = outbox st.
Proof.
  intros s st.
  assert (H : pending_replies st !! s = Some "") by (vm_compute; reflexivity).
  split; [exact H |].
  pose proof (empty_reply_is_dropped Sample.GATEWAYS s st H) as (Ha & _ & Hb & _).
  split; [exact Ha | exact Hb].
Defined.

(** C7, witness: two gateways, the cursor on the second. *)
Lemma pick_gateway_round_robin_witness :
  let st := set_gateway_index 1 initial_state in
  gateway_index st < length Sample.GATEWAYS /\
  pick_gateways Sample.GATEWAYS 2 st = (Ok [Sample.gateway2; Sample.gateway1], st) /\
  fst (pick_gateways Sample.GATEWAYS 3 st) =
    Ok [Sample.gateway2; Sample.gateway1; Sample.gateway2].
Proof.
  intros st.
  assert (H : gateway_index st < length Sample.GATEWAYS) by (simpl; lia).
  split; [exact H |].
  destruct (pick_gateway_round_robin Sample.GATEWAYS st H) as (_ & Hround & _ & _ & Hrep).
  split; [exact Hround |].
  destruct (Hrep 1) as (later & st' & Hone & Hmore).
  change (length Sample.GATEWAYS + 1) with 3 in Hmore.
  assert (later = [Sample.gateway2]) as ->.
  { vm_compute in Hone. now injection Hone as <- _. }
  rewrite Hmore. reflexivity.
Defined.

(** C2, witness: the first message of the sample sender is accepted and
    recorded; the same text 29 seconds later is a duplicate. *)
Lemma dedup_guard_witness :
  let s := Sample.sender in
  let first := incoming Sample.WHITELIST (Some s) "Chat hello" 100 100 initial_state in
  (s ∈ Sample.WHITELIST /\ s <> "" /\ passes_gate "Chat hello" = true) /\
  first = (OK, Some (s, "hello"),
           set_recent_messages {[ s := (SHA256.hexdigest "Chat hello", 100%Q) ]}
             initial_state) /\
  incoming Sample.WHITELIST (Some s) "Chat hello" 129 129 (snd first) =
    (DUPLICATE_IGNORED, None, snd first).
Proof.
  intros s first.
  assert (H1 : s ∈ Sample.WHITELIST) by (apply elem_of_singleton; reflexivity).
  assert (H2 : s <> "") by discriminate.
  assert (H3 : passes_gate "Chat hello" = true) by reflexivity.
  split; [auto |].
  assert (Hfirst : first = (OK, Some (s, "hello"),
            set_recent_messages {[ s := (SHA256.hexdigest "Chat hello", 100%Q) ]}
              initial_state)).
  { apply (dedup_guard Sample.WHITELIST s "Chat hello" 100 100 initial_state H1 H2 H3).
    intros (t0 & Ht0 & _). discriminate Ht0. }
  split; [exact Hfirst |].
  apply (dedup_guard Sample.WHITELIST s "Chat hello" 129 129 (snd first) H1 H2 H3).
  exists 100%Q. rewrite Hfirst. split; [apply lookup_insert_eq | reflexivity].
Defined.

(** C10, witness: ["Chat hi"] and then ["chat hi"] from the sample sender,
    at the same clock reading. *)
Lemma distinct_raw_text_not_duplicate_witness :
  let s := Sample.sender in
  let st1 := snd (incoming Sample.WHITELIST (Some s) "Chat hi" 100 100 initial_state) in
  (s ∈ Sample.WHITELIST /\ s <> "" /\
   passes_gate "Chat hi" = true /\ passes_gate "chat hi" = true /\
   prompt_of "Chat hi" = prompt_of "chat hi" /\
   SHA256.hexdigest "Chat hi" <> SHA256.hexdigest "chat hi") /\
  fst (incoming Sample.WHITELIST (Some s) "chat hi" 100 100 st1) = (OK, Some (s, "hi")).
Proof.
  intros s st1.
  assert (H1 : s ∈ Sample.WHITELIST) by (apply elem_of_singleton; reflexivity).
  assert (H2 : s <> "") by discriminate.
  assert (H3 : passes_gate "Chat hi" = true) by reflexivity.
  assert (H4 : passes_gate "chat hi" = true) by reflexivity.
  assert (H5 : prompt_of "Chat hi" = prompt_of "chat hi") by reflexivity.
  assert (H6 : SHA256.hexdigest "Chat hi" <> SHA256.hexdigest "chat hi")
    by (vm_compute; discriminate).
  split; [auto 10 |].
  destruct (distinct_raw_text_not_duplicate Sample.WHITELIST s "Chat hi" "chat hi"
              100 100 100 100 initial_state H1 H2 H3 H4 H5 H6) as [_ Hsecond].
  fold st1 in Hsecond. now rewrite Hsecond.
Defined.

(** C5, witness: the backend answers with status 500. *)
Lemma backend_failure_gives_fallback_witness :
  let s := Sample.sender in
  let http := Response 500 None in
  is_failure http = true /\
  exists st',
    process_prompt_with_delay s "hi" http 0 initial_state = (Ok tt, st') /\
    pending_replies st' !! s = Some API_ERROR_REPLY /\
    context_of s st' = [Turn "user" "hi"].
Proof.
  intros s http.
  assert (H : is_failure http = true) by reflexivity.
  split; [exact H |].
  destruct (backend_failure_gives_fallback s "hi" http 0 initial_state H)
    as (st' & Hrun & Hreply & Hctx & _).
  exists st'. split; [exact Hrun |]. split; [exact Hreply |].
  unfold context_of. now rewrite Hctx.
Defined.

(** A reply of 2401 characters goes on as its first 2400 characters and
    the marker, 2415 characters in all, and stays whole in the context. *)
Example long_reply_run :
  let s := Sample.sender in
  let st := snd (process_prompt_with_delay s "hi" (Response 200 (Some Sample.long_reply))
                   0 initial_state) in
  option_map Py.len (pending_replies st !! s) = Some 2415 /\
  Py.len <$> (content <$> last (context_of s st)) = Some 2401.
Proof. vm_compute. split; reflexivity. Qed.

(** Characters are counted, not bytes: a reply of 1300 accented letters
    takes 2600 bytes and is stored whole; a no-break space and an em
    space around a reply are stripped like any white space. *)
Example accented_reply_run :
  let s := Sample.sender in
  let st := snd (process_prompt_with_delay s "hi"
                   (Response 200 (Some Sample.accented_reply)) 0 initial_state) in
  String.length Sample.accented_reply = 2600 /\
  Py.len Sample.accented_reply = 1300 /\
  pending_replies st !! s = Some Sample.accented_reply /\
  Py.strip (Py.utf8 160 +:+ ("café " +:+ Py.utf8 8195)) = "café".
Proof. vm_compute. repeat split. Qed.

(** * Further properties of the code *)

(** ** The allow-list at start-up *)

Lemma split_comma_free (s : string) :
  comma_free s = true -> Py.split "," s = [s].
Proof.
  induction s as [| c s IH]; [reflexivity |].
  cbn [comma_free Py.split]. intros H. apply andb_true_iff in H as [Hc Hs].
  apply negb_true_iff in Hc. rewrite Hc, (IH Hs). reflexivity.
Qed.

Lemma split_after_comma (x y : string) :
  comma_free x = true ->
  Py.split "," (x +:+ String "," y) = x :: Py.split "," y.
Proof.
  induction x as [| c x IH]; intros H.
  - reflexivity.
  - cbn [comma_free] in H. apply andb_true_iff in H as [Hc Hx].
    apply negb_true_iff in Hc.
    change (String c x +:+ String "," y) with (String c (x +:+ String "," y)).
    cbn [Py.split]. rewrite Hc, (IH Hx). reflexivity.
Qed.

(** [split] undoes [join] on fields without commas. *)
Lemma split_joined (l : list string) :
  l <> [] -> Forall (fun n => comma_free n = true) l ->
  Py.split "," (joined l) = l.
Proof.
  induction l as [| x [| y rest] IH]; intros Hne Hall; [contradiction | |].
  - apply Forall_cons in Hall as [Hx _]. now apply split_comma_free.
  - apply Forall_cons in Hall as [Hx Hrest].
    change (joined (x :: y :: rest)) with (x +:+ String "," (joined (y :: rest))).
    rewrite (split_after_comma _ _ Hx), IH; [reflexivity | discriminate | exact Hrest].
Qed.

Lemma incoming_refuses (WHITELIST : gset string) (from_number : option string)
    (content : string) (t1 t2 : Q) (st : state) :
  ~ (exists s, from_number = Some s /\ s <> "" /\ s ∈ WHITELIST) ->
  incoming WHITELIST from_number content t1 t2 st = (UNAUTHORIZED, None, st).
Proof.
  intros Hno. destruct from_number as [s |]; [| reflexivity].
  unfold incoming.
  destruct (Py.truthy s) eqn:Hs; [| reflexivity].
  destruct (decide (s ∈ WHITELIST)) as [Hin | Hout].
  - exfalso. apply Hno. exists s. repeat split; [| exact Hin].
    intros ->. discriminate.
  - now rewrite (bool_decide_eq_false_2 _ Hout).
Qed.

Lemma incoming_admits (WHITELIST : gset string) (s content : string)
    (t1 t2 : Q) (st : state) :
  s ∈ WHITELIST -> s <> "" ->
  fst (fst (incoming WHITELIST (Some s) content t1 t2 st)) <> UNAUTHORIZED.
Proof.
  intros Hin Hs. destruct (passes_gate content) eqn:Hg.
  - rewrite (incoming_gated _ _ _ _ _ _ Hin Hs Hg).
    destruct (recent_messages st !! s) as [[h t0] |]; [| discriminate].
    destruct (_ && _); discriminate.
  - rewrite (incoming_ignored _ _ _ _ _ _ Hin Hs Hg). discriminate.
Qed.

(** X1. When [PHONE_NUMBER] is not set, or set to the empty string, the
    allow-list is empty: every request, whoever it is from and whatever
    it says, is answered "Unauthorized" (403), starts no worker and
    leaves the globals as they were. *)
Theorem empty_allow_list_refuses_everyone (getenv : string -> option string)
    (from_number : option string) (content : string) (t1 t2 : Q) (st : state) :
  getenv "PHONE_NUMBER" = None \/ getenv "PHONE_NUMBER" = Some "" ->
  WHITELIST_of_env getenv = ∅ /\
  incoming (WHITELIST_of_env getenv) from_number content t1 t2 st =
    (UNAUTHORIZED, None, st).
Proof.
  intros Henv.
  assert (Hempty : WHITELIST_of_env getenv = ∅).
  { unfold WHITELIST_of_env. destruct Henv as [-> | ->]; reflexivity. }
  split; [exact Hempty |].
  apply incoming_refuses. rewrite Hempty.
  intros (s & _ & _ & Hin). now apply not_elem_of_empty in Hin.
Qed.

(** X2. When [PHONE_NUMBER] is a non-empty list of numbers joined by
    commas, none of them holding a comma, the allow-list holds exactly
    those numbers: [split] gives back the list that was joined. *)
Theorem allow_list_holds_the_listed_numbers (getenv : string -> option string)
    (numbers : list string) (s : string) :
  getenv "PHONE_NUMBER" = Some (joined numbers) ->
  Forall (fun n => comma_free n = true) numbers ->
  joined numbers <> "" ->
  (s ∈ WHITELIST_of_env getenv <-> s ∈ numbers).
Proof.
  intros Henv Hall Hne. unfold WHITELIST_of_env. rewrite Henv. simpl default.
  destruct (Py.truthy (joined numbers)) eqn:Ht;
    [| now apply truthy_false in Ht].
  rewrite elem_of_list_to_set, split_joined; [reflexivity | | exact Hall].
  intros ->. now apply Hne.
Qed.

(** ** Who is refused *)

Lemma sender_admitted_or_not (WHITELIST : gset string) (from_number : option string) :
  (exists s, from_number = Some s /\ s <> "" /\ s ∈ WHITELIST) \/
  ~ (exists s, from_number = Some s /\ s <> "" /\ s ∈ WHITELIST).
Proof.
  destruct from_number as [s |]; [| right; intros (s & H & _); discriminate].
  destruct (decide (s = "")) as [-> | Hs].
  - right. intros (s & H & Hs & _). injection H as <-. now apply Hs.
  - destruct (decide (s ∈ WHITELIST)) as [Hin | Hout].
    + left. now exists s.
    + right. intros (s' & H & _ & Hin). injection H as <-. contradiction.
Qed.

(** X3. A request is answered "Unauthorized" exactly when [from_number]
    is missing, empty, or not on the allow-list (an empty string on the
    allow-list admits nobody); and that answer always comes with no
    worker started and the globals unchanged. *)
Theorem unauthorized_exactly (WHITELIST : gset string)
    (from_number : option string) (content : string) (t1 t2 : Q) (st : state) :
  let outcome := incoming WHITELIST from_number content t1 t2 st in
  (fst (fst outcome) = UNAUTHORIZED <->
     ~ (exists s, from_number = Some s /\ s <> "" /\ s ∈ WHITELIST)) /\
  (fst (fst outcome) = UNAUTHORIZED <-> outcome = (UNAUTHORIZED, None, st)).
Proof.
  intros outcome. unfold outcome.
  destruct (sender_admitted_or_not WHITELIST from_number) as [(s & -> & Hs & Hin) | Hno].
  - pose proof (incoming_admits WHITELIST s content t1 t2 st Hin Hs) as Hadm.
    split; split; intros H.
    + contradiction.
    + exfalso. apply H. now exists s.
    + contradiction.
    + rewrite H in Hadm. now contradiction Hadm.
  - rewrite (incoming_refuses _ _ content t1 t2 st Hno). simpl. tauto.
Qed.

(** X4. A request that lacks [from_number] or [content] has no effect: it
    is answered "Bad Request" when the body is empty, "Unauthorized" when
    [from_number] is missing, and otherwise "Unauthorized" or "Ignored";
    no worker is started and the globals stay as they were. *)
Theorem incomplete_request_has_no_effect (WHITELIST : gset string)
    (data : gmap string string) (t1 t2 : Q) (st : state) :
  data !! "from_number" = None \/ data !! "content" = None ->
  exists response,
    incoming_post WHITELIST data t1 t2 st = (response, None, st) /\
    (response = BAD_REQUEST <-> data = ∅) /\
    (data <> ∅ -> data !! "from_number" = None -> response = UNAUTHORIZED) /\
    (response = BAD_REQUEST \/ response = UNAUTHORIZED \/ response = IGNORED).
Proof.
  intros Hmiss. unfold incoming_post.
  destruct (decide (data = ∅)) as [Hempty | Hfull].
  - rewrite (bool_decide_eq_true_2 _ Hempty). exists BAD_REQUEST.
    split; [reflexivity |]. split; [tauto |]. split; [contradiction | tauto].
  - rewrite (bool_decide_eq_false_2 _ Hfull).
    destruct (data !! "from_number") as [s |] eqn:Hfrom.
    + destruct Hmiss as [Hmiss | ->]; [discriminate |]. simpl default.
      destruct (sender_admitted_or_not WHITELIST (Some s))
        as [(s' & Heq & Hs & Hin) | Hno].
      * injection Heq as <-.
        rewrite (incoming_ignored WHITELIST s "" t1 t2 st Hin Hs eq_refl).
        exists IGNORED. split; [reflexivity |].
        split; [split; [discriminate | contradiction] |].
        split; [discriminate | tauto].
      * rewrite (incoming_refuses WHITELIST (Some s) "" t1 t2 st Hno).
        exists UNAUTHORIZED. split; [reflexivity |].
        split; [split; [discriminate | contradiction] |].
        split; [discriminate | tauto].
    + exists UNAUTHORIZED. split; [reflexivity |].
      split; [split; [discriminate | contradiction] |].
      split; [reflexivity | tauto].
Qed.

(** ** The trigger gate *)


Lemma slice_from_all (n : nat) : forall s,
  Py.len s <= n -> Py.slice_from n s = "".
Proof.
  intros s H. unfold Py.slice_from. now rewrite drop_ge.
Qed.

Lemma strip_of_rstrip_empty (s : string) : Py.rstrip s = "" -> Py.strip s = "".
Proof.
  intros H. unfold Py.strip. now rewrite <- lstrip_rstrip, H.
Qed.

(** X6. A message that holds the trigger word and nothing else (in any
    case, possibly followed by white space) passes the gate with the
    empty prompt: unless it is a duplicate, it is accepted and the worker
    is started with [""]. *)
Theorem bare_trigger_gives_empty_prompt (WHITELIST : gset string)
    (s content : string) (t1 t2 : Q) (st : state) :
  s ∈ WHITELIST -> s <> "" ->
  Py.lstrip content = content ->
  Py.lower (Py.rstrip content) = Py.lower TRIGGER_PREFIX ->
  passes_gate content = true /\
  prompt_of content = "" /\
  (fst (incoming WHITELIST (Some s) content t1 t2 st) = (DUPLICATE_IGNORED, None) \/
   fst (incoming WHITELIST (Some s) content t1 t2 st) = (OK, Some (s, ""))).
Proof.
  intros Hin Hs Hl Hword.
  assert (Hg : passes_gate content = true).
  { unfold passes_gate, Py.strip. now rewrite Hl, Hword. }
  assert (Hp : prompt_of content = "").
  { unfold prompt_of. apply strip_of_rstrip_empty.
    assert (Hlen : Py.len (Py.rstrip content) = Py.len TRIGGER_PREFIX).
    { now rewrite <- (len_lower (Py.rstrip content)), Hword, len_lower. }
    rewrite <- slice_from_rstrip by (rewrite Hlen; lia).
    apply slice_from_all. rewrite Hlen. lia. }
  split; [exact Hg |]. split; [exact Hp |].
  rewrite (incoming_gated _ _ _ _ _ _ Hin Hs Hg), Hp.
  destruct (recent_messages st !! s) as [[h t0] |]; [| now right].
  destruct (_ && _); [now left | now right].
Qed.

(** ** The dedup record *)

Lemma incoming_state (WHITELIST : gset string) (from_number : option string)
    (content : string) (t1 t2 : Q) (st : state) :
  snd (incoming WHITELIST from_number content t1 t2 st) = st \/
  exists s,
    from_number = Some s /\
    snd (incoming WHITELIST from_number content t1 t2 st) =
      set_recent_messages
        (<[s := (SHA256.hexdigest content, t2)]> (recent_messages st)) st.
Proof.
  unfold incoming. destruct from_number as [s |]; [| now left].
  destruct (_ || _); [now left |].
  destruct (negb _); [now left |].
  destruct (recent_messages st !! s) as [[h t0] |];
    (destruct (_ && _); [now left | right; now exists s]).
Qed.

(** X7. Handling a request changes nothing but the dedup record of the
    sender named in it: the records of all other senders, the contexts,
    the pending replies, the timers, the gateway cursor and the outbox
    are as before. *)
Theorem incoming_touches_one_record (WHITELIST : gset string)
    (from_number : option string) (content : string) (t1 t2 : Q) (st : state)
    (other : string) :
  from_number <> Some other ->
  let st' := snd (incoming WHITELIST from_number content t1 t2 st) in
  recent_messages st' !! other = recent_messages st !! other /\
  user_contexts st' = user_contexts st /\
  pending_replies st' = pending_replies st /\
  send_timers st' = send_timers st /\
  timers st' = timers st /\
  gateway_index st' = gateway_index st /\
  outbox st' = outbox st.
Proof.
  intros Hother st'. unfold st'.
  destruct (incoming_state WHITELIST from_number content t1 t2 st)
    as [-> | (s & -> & ->)]; [easy |].
  simpl. rewrite lookup_insert_ne by congruence. easy.
Qed.

Lemma incoming_repeat (WHITELIST : gset string) (s content : string)
    (t0 t1 t1' : Q) (st : state) :
  s ∈ WHITELIST -> s <> "" -> passes_gate content = true ->
  recent_messages st !! s = Some (SHA256.hexdigest content, t0) ->
  incoming WHITELIST (Some s) content t1 t1' st =
    if Py.lt (t1 - t0) REPEAT_TIMEOUT
    then (DUPLICATE_IGNORED, None, st)
    else (OK, Some (s, prompt_of content),
          set_recent_messages
            (<[s := (SHA256.hexdigest content, t1')]> (recent_messages st)) st).
Proof.
  intros Hin Hs Hg Hrec.
  rewrite (incoming_gated _ _ _ _ _ _ Hin Hs Hg), Hrec.
  now rewrite bool_decide_eq_true_2 by reflexivity.
Qed.

(** X8. The dedup window is counted from the accepted message.  After a
    message is accepted and recorded at clock reading [t0], the same
    text is a duplicate exactly while the clock at the test is less than
    [REPEAT_TIMEOUT] past [t0]; and a rejected duplicate does not move
    that start: the next copy is judged against [t0] again. *)
Theorem duplicate_window_is_anchored (WHITELIST : gset string)
    (s content : string) (t t0 t1 t1' t2 t2' : Q) (st : state) :
  s ∈ WHITELIST -> s <> "" -> passes_gate content = true ->
  fst (fst (incoming WHITELIST (Some s) content t t0 st)) = OK ->
  let st1 := snd (incoming WHITELIST (Some s) content t t0 st) in
  let second := incoming WHITELIST (Some s) content t1 t1' st1 in
  let third := incoming WHITELIST (Some s) content t2 t2' (snd second) in
  (fst (fst second) = DUPLICATE_IGNORED <-> (t1 - t0 < REPEAT_TIMEOUT)%Q) /\
  (fst (fst second) = DUPLICATE_IGNORED ->
   (fst (fst third) = DUPLICATE_IGNORED <-> (t2 - t0 < REPEAT_TIMEOUT)%Q)).
Proof.
  intros Hin Hs Hg Hok st1 second third.
  assert (Hrec : recent_messages st1 !! s = Some (SHA256.hexdigest content, t0)).
  { unfold st1. revert Hok. rewrite (incoming_gated _ _ _ _ _ _ Hin Hs Hg).
    destruct (recent_messages st !! s) as [[h t'] |].
    - destruct (_ && _); [discriminate |]. intros _. apply lookup_insert_eq.
    - intros _. apply lookup_insert_eq. }
  assert (Hjudge : forall c c' st2,
            recent_messages st2 !! s = Some (SHA256.hexdigest content, t0) ->
            (fst (fst (incoming WHITELIST (Some s) content c c' st2)) = DUPLICATE_IGNORED
             <-> (c - t0 < REPEAT_TIMEOUT)%Q) /\
            (fst (fst (incoming WHITELIST (Some s) content c c' st2)) = DUPLICATE_IGNORED
             -> snd (incoming WHITELIST (Some s) content c c' st2) = st2)).
  { intros c c' st2 H2.
    rewrite (incoming_repeat _ _ _ _ _ _ _ Hin Hs Hg H2).
    destruct (Py.lt (c - t0) REPEAT_TIMEOUT) eqn:E.
    - apply lt_true in E. simpl. tauto.
    - split; [| discriminate]. split; [discriminate |].
      intros Hlt. apply lt_true in Hlt. congruence. }
  destruct (Hjudge t1 t1' st1 Hrec) as [Hsecond Hsame].
  split; [exact Hsecond |].
  intros Hdup. unfold third. fold second in Hsame. rewrite (Hsame Hdup).
  apply (Hjudge t2 t2' st1 Hrec).
Qed.

(** ** What is stored for delivery *)

Lemma len_sms_text (reply : string) :
  Py.len (sms_text reply) <= MAX_SMS_CHARS + Py.len TRUNCATED.
Proof.
  unfold sms_text. destruct (MAX_SMS_CHARS <? Py.len reply) eqn:E.
  - rewrite len_append by reflexivity. rewrite len_slice_to. lia.
  - apply Nat.ltb_ge in E. lia.
Qed.

(** X9. Whatever the backend does, the reply the worker stores for the
    sender has at most [MAX_SMS_CHARS] characters plus the length of the
    truncation marker (2415 in all); the two fallback texts are within
    that bound too. *)
Theorem stored_reply_is_short (s prompt : string) (http : http_outcome)
    (now : Q) (st : state) :
  exists reply,
    pending_replies (snd (process_prompt_with_delay s prompt http now st)) !! s
      = Some reply /\
    Py.len reply <= MAX_SMS_CHARS + Py.len TRUNCATED /\
    MAX_SMS_CHARS + Py.len TRUNCATED = 2415.
Proof.
  exists (reply_of s prompt http st).
  rewrite process_prompt_with_delay_eq.
  split; [apply lookup_insert_eq |].
  split; [| reflexivity].
  assert (Hu : Py.len UNAVAILABLE_REPLY <= MAX_SMS_CHARS + Py.len TRUNCATED).
  { apply Nat.leb_le. vm_compute. reflexivity. }
  assert (Ha : Py.len API_ERROR_REPLY <= MAX_SMS_CHARS + Py.len TRUNCATED).
  { apply Nat.leb_le. vm_compute. reflexivity. }
  unfold reply_of. rewrite get_deepseek_response_eq.
  destruct http as [| status_code [text |]]; [exact Hu | |].
  - destruct (status_code =? 200)%Z; [apply len_sms_text | exact Ha].
  - destruct (status_code =? 200)%Z; [exact Hu | exact Ha].
Qed.

(** ** Senders do not disturb each other *)

Lemma queried_other_context (s other prompt : string) (http : http_outcome)
    (st : state) :
  other <> s ->
  user_contexts (queried s prompt http st) !! other = user_contexts st !! other.
Proof.
  intros Hne. unfold queried. rewrite get_deepseek_response_eq.
  destruct http as [| status_code [text |]]; simpl;
    try destruct (status_code =? 200)%Z; simpl;
    now rewrite lookup_insert_ne by congruence.
Qed.

Lemma lookup_cancelled_other (held : option nat) (l : list Timer) (id : nat) :
  held <> Some id -> cancelled held l !! id = l !! id.
Proof.
  destruct held as [id0 |]; [| reflexivity].
  intros H. simpl. apply list_lookup_alter_ne. congruence.
Qed.

(** X10. A run of the worker for one sender leaves every other sender
    alone: the other's context, pending reply and registered timer are
    unchanged, and the dedup records, the outbox and the gateway cursor
    are not touched.  Of the timer objects only the one that
    [send_timers] holds for the worker's own sender is changed; so, when
    each registered timer was made for its sender, every timer made for
    the other sender is left as it is. *)
Theorem worker_leaves_other_senders_alone (s other prompt : string)
    (http : http_outcome) (now : Q) (st : state) :
  other <> s ->
  let st' := snd (process_prompt_with_delay s prompt http now st) in
  user_contexts st' !! other = user_contexts st !! other /\
  pending_replies st' !! other = pending_replies st !! other /\
  send_timers st' !! other = send_timers st !! other /\
  recent_messages st' = recent_messages st /\
  outbox st' = outbox st /\
  gateway_index st' = gateway_index st /\
  (forall id tm,
     timers st !! id = Some tm -> send_timers st !! s <> Some id ->
     timers st' !! id = Some tm) /\
  (timers_owned st ->
   forall id tm,
     timers st !! id = Some tm -> t_args tm = other ->
     timers st' !! id = Some tm).
Proof.
  intros Hne st'. unfold st'.
  rewrite process_prompt_with_delay_eq. unfold snd.
  pose proof (queried_other_context s other prompt http st Hne) as Hctx.
  destruct (queried_keeps s prompt http st) as [m Hq]. rewrite Hq in *.
  unfold scheduled. simpl.
  assert (Hkept : forall id tm,
            timers st !! id = Some tm -> send_timers st !! s <> Some id ->
            (cancelled (send_timers st !! s) (timers st)
               ++ [MkTimer SEND_DELAY s (Some now) false false]) !! id = Some tm).
  { intros id tm Htm Hheld.
    rewrite lookup_app_l
      by (rewrite length_cancelled; now apply lookup_lt_Some in Htm).
    now rewrite lookup_cancelled_other. }
  split; [exact Hctx |].
  split; [now rewrite lookup_insert_ne by congruence |].
  split; [now rewrite lookup_insert_ne by congruence |].
  split; [reflexivity |]. split; [reflexivity |]. split; [reflexivity |].
  split; [exact Hkept |].
  intros Hown id tm Htm Hargs. apply Hkept; [exact Htm |].
  intros Hheld. destruct (Hown _ _ Hheld) as (tm' & Htm' & Hargs').
  congruence.
Qed.

Lemma send_pending_reply_keeps (GATEWAYS : list gateway) (s : string) (st : state) :
  user_contexts (snd (send_pending_reply GATEWAYS s st)) = user_contexts st /\
  recent_messages (snd (send_pending_reply GATEWAYS s st)) = recent_messages st.
Proof.
  destruct (pending_replies st !! s) as [reply |] eqn:Hp.
  - destruct (Py.truthy reply) eqn:Hr.
    + rewrite (send_pending_reply_text _ _ _ _ Hp Hr).
      destruct (GATEWAYS !! gateway_index st) as [gw |] eqn:Hgw.
      * now rewrite (send_sms_at GATEWAYS s reply (popped s st) gw) by exact Hgw.
      * unfold send_sms, bind.
        now rewrite pick_gateway_out_of_range
          by (simpl; now apply lookup_ge_None_1).
    + apply truthy_false in Hr. subst reply.
      now rewrite (send_pending_reply_empty _ _ _ Hp).
  - now rewrite (send_pending_reply_absent _ _ _ Hp).
Qed.

(** X11. The timer callback of one sender leaves every other sender
    alone: the other's pending reply and registered timer stay, nothing
    is posted to the other, and contexts, dedup records and timer objects
    are not touched. *)
Theorem callback_leaves_other_senders_alone (GATEWAYS : list gateway)
    (s other : string) (st : state) :
  other <> s ->
  let st' := snd (send_pending_reply GATEWAYS s st) in
  pending_replies st' !! other = pending_replies st !! other /\
  send_timers st' !! other = send_timers st !! other /\
  sent_to other st' = sent_to other st /\
  user_contexts st' = user_contexts st /\
  recent_messages st' = recent_messages st /\
  timers st' = timers st.
Proof.
  intros Hne st'. unfold st'.
  destruct (send_pending_reply_effect GATEWAYS s st) as (Ht & Hp & Hs & Ho & _).
  destruct (send_pending_reply_keeps GATEWAYS s st) as (Hc & Hr).
  rewrite Hp, Hs, Ht, Hc, Hr.
  rewrite !lookup_delete_ne by congruence.
  rewrite (sent_to_app other _ _ _ Ho), posted_to_other by congruence.
  simpl. now rewrite app_nil_r.
Qed.

(** ** What holds in every reachable state *)

Lemma lookup_cancelled_args (held : option nat) (l : list Timer) (id : nat)
    (tm : Timer) :
  l !! id = Some tm ->
  exists tm', cancelled held l !! id = Some tm' /\ t_args tm' = t_args tm.
Proof.
  intros H. destruct (decide (held = Some id)) as [-> | Hne].
  - simpl. rewrite list_lookup_alter_eq, H. simpl. eexists. split; reflexivity.
  - rewrite (lookup_cancelled_other _ _ _ Hne). now exists tm.
Qed.

Lemma scheduled_owned (s reply : string) (now : Q) (st : state) :
  timers_owned st -> timers_owned (scheduled s reply now st).
Proof.
  intros Hown s' id Hheld. simpl in *.
  destruct (decide (s = s')) as [<- | Hne].
  - rewrite lookup_insert_eq in Hheld. injection Hheld as <-.
    exists (MkTimer SEND_DELAY s (Some now) false false). split; [| reflexivity].
    rewrite lookup_app_r by now rewrite length_cancelled.
    now rewrite length_cancelled, Nat.sub_diag.
  - rewrite lookup_insert_ne in Hheld by exact Hne.
    destruct (Hown _ _ Hheld) as (tm & Htm & Hargs).
    destruct (lookup_cancelled_args (send_timers st !! s) _ _ _ Htm)
      as (tm' & Htm' & Hargs').
    exists tm'. split; [| congruence].
    rewrite lookup_app_l; [exact Htm' |].
    rewrite length_cancelled. now apply lookup_lt_Some in Htm.
Qed.

Lemma scheduled_pending (s reply : string) (now : Q) (st : state) :
  timers_owned st -> pending_has_timer st ->
  pending_has_timer (scheduled s reply now st).
Proof.
  intros Hown Hpend s' reply' Hp. simpl in *.
  destruct (decide (s = s')) as [<- | Hne].
  - exists (length (timers st)), (MkTimer SEND_DELAY s (Some now) false false).
    split; [apply lookup_insert_eq |].
    split.
    { rewrite lookup_app_r by now rewrite length_cancelled.
      now rewrite length_cancelled, Nat.sub_diag. }
    repeat split. now exists now.
  - rewrite lookup_insert_ne in Hp by exact Hne.
    destruct (Hpend _ _ Hp) as (id & tm & Hheld & Htm & Hrest).
    exists id, tm. split; [now rewrite lookup_insert_ne by exact Hne |].
    split; [| exact Hrest].
    rewrite lookup_app_l
      by (rewrite length_cancelled; now apply lookup_lt_Some in Htm).
    rewrite lookup_cancelled_other; [exact Htm |].
    intros Hs. destruct (Hown _ _ Hs) as (tm' & Htm' & Hargs').
    destruct Hrest as (_ & Hargs & _). congruence.
Qed.

Section Invariants.

Variable GATEWAYS : list gateway.

Lemma wake_owned (now : Q) (st : state) (id : nat) :
  timers_owned st -> timers_owned (wake GATEWAYS now st id).
Proof.
  intros Hown.
  destruct (wake_effect GATEWAYS now st id)
    as [-> | (tm & tm' & Htm & _ & _ & Ha & Ht & _ & Hrest)]; [exact Hown |].
  intros s id1 Hheld.
  assert (Hold : send_timers st !! s = Some id1).
  { destruct Hrest as [(_ & _ & Hs & _) | (_ & _ & Hs & _)]; rewrite Hs in Hheld.
    - exact Hheld.
    - apply lookup_delete_Some in Hheld. tauto. }
  destruct (Hown _ _ Hold) as (tm1 & Htm1 & Hargs1).
  rewrite Ht. destruct (decide (id1 = id)) as [-> | Hne].
  - exists tm'. split; [| congruence].
    apply list_lookup_insert_eq. now apply lookup_lt_Some in Htm.
  - exists tm1. split; [| exact Hargs1].
    now rewrite list_lookup_insert_ne by congruence.
Qed.

Lemma wake_pending (now : Q) (st : state) (id : nat) :
  pending_has_timer st -> pending_has_timer (wake GATEWAYS now st id).
Proof.
  intros Hpend.
  destruct (wake_effect GATEWAYS now st id)
    as [-> | (tm & tm' & Htm & Hdue & _ & _ & Ht & _ & Hrest)]; [exact Hpend |].
  intros s reply Hp.
  assert (Hold : pending_replies st !! s = Some reply /\
                 send_timers (wake GATEWAYS now st id) !! s = send_timers st !! s /\
                 (t_finished tm = true \/ t_args tm <> s)).
  { destruct Hrest as [(Hf & Hp' & Hs & _) | (_ & Hp' & Hs & _)];
      rewrite Hp' in Hp; rewrite Hs.
    - tauto.
    - apply lookup_delete_Some in Hp as [Hne Hp].
      split; [exact Hp |]. split; [now apply lookup_delete_ne | now right]. }
  destruct Hold as (Hp0 & Hs0 & Hnot).
  destruct (Hpend _ _ Hp0) as (id1 & tm1 & Hheld & Htm1 & Hlive & Hargs & Hrest1).
  exists id1, tm1. split; [now rewrite Hs0 |].
  split; [| tauto].
  rewrite Ht, list_lookup_insert_ne; [exact Htm1 |].
  intros <-. rewrite Htm in Htm1. injection Htm1 as <-.
  destruct Hnot as [Hf | Hne]; [| contradiction].
  unfold live in Hlive. rewrite Hf in Hlive. discriminate.
Qed.

Lemma wake_keeps_contexts (now : Q) (st : state) (id : nat) :
  user_contexts (wake GATEWAYS now st id) = user_contexts st.
Proof.
  unfold wake. destruct (timers st !! id) as [tm |] eqn:Htm; [| reflexivity].
  destruct (due now tm); [| reflexivity].
  unfold Timer_run. rewrite Htm.
  destruct (t_woken tm); [reflexivity |].
  destruct (t_finished tm); [reflexivity |].
  set (st1 := set_timers _ st).
  destruct (send_pending_reply_keeps GATEWAYS (t_args tm) st1) as [Hc _].
  destruct (send_pending_reply GATEWAYS (t_args tm) st1) as [[[] | e] st2];
    simpl in Hc |- *; exact Hc.
Qed.

End Invariants.

Lemma queried_contexts_bounded (s prompt : string) (http : http_outcome)
    (st : state) :
  contexts_bounded st -> contexts_bounded (queried s prompt http st).
Proof.
  intros Hb other. destruct (decide (other = s)) as [-> | Hne].
  - unfold queried. rewrite get_deepseek_response_eq.
    assert (Ha : length (context_of s (asked s prompt st)) <= S MAX_CONTEXT_LEN).
    { pose proof (context_bounded_after_question s prompt st). lia. }
    assert (Hb' : forall reply,
              length (context_of s (answered s prompt reply st)) <= S MAX_CONTEXT_LEN).
    { intros reply. rewrite context_after_answer. lia. }
    destruct http as [| status_code [text |]]; simpl;
      try destruct (status_code =? 200)%Z; simpl; auto.
  - unfold context_of. rewrite (queried_other_context _ _ _ _ _ Hne). apply Hb.
Qed.

(** The timers and the pending replies stay in step, in every reachable
    state. *)
Lemma reachable_timers (WHITELIST : gset string) (GATEWAYS : list gateway)
    (st : state) :
  reachable WHITELIST GATEWAYS st ->
  timers_registered st /\ timers_owned st /\ pending_has_timer st.
Proof.
  intros Hr. induction Hr as [| st st' _ (Hreg & Hown & Hpend) Hstep].
  - split; [apply initial_state_registered |].
    split; [intros s id H | intros s reply H]; discriminate H.
  - destruct Hstep as [from_number content t1 t2 st | s prompt http now st | now id st].
    + destruct (incoming_keeps WHITELIST from_number content t1 t2 st) as [m ->].
      repeat split; assumption.
    + rewrite process_prompt_with_delay_eq. unfold snd.
      destruct (queried_keeps s prompt http st) as [m ->].
      split; [now apply scheduled_registered |].
      split; [now apply scheduled_owned | now apply scheduled_pending].
    + split; [now apply wake_registered |].
      split; [now apply wake_owned | now apply wake_pending].
Qed.

Lemma reachable_contexts (WHITELIST : gset string) (GATEWAYS : list gateway)
    (st : state) :
  reachable WHITELIST GATEWAYS st -> contexts_bounded st.
Proof.
  intros Hr. induction Hr as [| st st' _ Hb Hstep].
  - intros s. unfold context_of. simpl. rewrite lookup_empty. simpl. lia.
  - destruct Hstep as [from_number content t1 t2 st | s prompt http now st | now id st].
    + destruct (incoming_keeps WHITELIST from_number content t1 t2 st) as [m ->].
      exact Hb.
    + rewrite process_prompt_with_delay_eq. unfold snd.
      apply (queried_contexts_bounded s prompt http) in Hb.
      intros other. exact (Hb other).
    + intros other. unfold context_of. rewrite wake_keeps_contexts. apply Hb.
Qed.

(** X12. With the two gateways of the configuration, the cursor is inside
    the gateway list in every reachable state: [send_sms] never fails on
    [GATEWAYS[gateway_index]], it posts the message through the gateway at
    the cursor and moves the cursor on, modulo two. *)
Theorem gateway_is_always_available (WHITELIST : gset string)
    (getenv : string -> option string) (st : state) (to text : string) :
  reachable WHITELIST (GATEWAYS_of_env getenv) st ->
  exists gw,
    GATEWAYS_of_env getenv !! gateway_index st = Some gw /\
    send_sms (GATEWAYS_of_env getenv) to text st =
      (Ok tt,
       set_outbox (outbox st ++ [Sms gw to text])
         (set_gateway_index ((gateway_index st + 1) mod 2) st)).
Proof.
  intros Hr.
  destruct (reachable_invariant WHITELIST (GATEWAYS_of_env getenv) st) as [Hcur _];
    [discriminate | exact Hr |].
  destruct (lookup_lt_is_Some_2 _ _ Hcur) as [gw Hgw].
  exists gw. split; [exact Hgw |].
  now rewrite (send_sms_at _ to text st gw Hgw).
Qed.

(** X13. When every run of the worker, its model query included, is
    taken as a whole (no two queries of one sender in flight together),
    every sender's context holds at most [MAX_CONTEXT_LEN + 1] turns in
    every state the server reaches. *)
Theorem context_stays_within_eleven_turns (WHITELIST : gset string)
    (GATEWAYS : list gateway) (st : state) (s : string) :
  reachable WHITELIST GATEWAYS st ->
  length (context_of s st) <= MAX_CONTEXT_LEN + 1.
Proof.
  intros Hr. pose proof (reachable_contexts _ _ _ Hr s) as H. lia.
Qed.

(** With two queries of one sender in flight together the bound of X13 is
    passed: in [Sample.crowded] both user turns are appended before
    either answer, and the context holds twelve turns. *)
Example interleaved_queries_reach_twelve_turns :
  length (context_of Sample.sender Sample.crowded) = 12.
Proof. vm_compute. reflexivity. Qed.


(** X15. In every reachable state no pending reply is left without its
    timer: [send_timers] holds for the sender a timer that was made for
    this sender, has been started with the interval [SEND_DELAY], and is
    still live. *)
Theorem pending_reply_has_a_live_timer (WHITELIST : gset string)
    (GATEWAYS : list gateway) (st : state) (s reply : string) :
  reachable WHITELIST GATEWAYS st ->
  pending_replies st !! s = Some reply ->
  exists id tm,
    send_timers st !! s = Some id /\ timers st !! id = Some tm /\
    live tm = true /\ t_args tm = s /\
    is_Some (t_started tm) /\ t_interval tm = SEND_DELAY.
Proof.
  intros Hr Hp. destruct (reachable_timers _ _ _ Hr) as (_ & _ & Hpend).
  exact (Hpend _ _ Hp).
Qed.

(** ** From the worker to the SMS *)

Lemma wake_fires_clears (GATEWAYS : list gateway) (now t0 : Q) (s : string)
    (st : state) (id : nat) :
  timers st !! id = Some (MkTimer SEND_DELAY s (Some t0) false false) ->
  (t0 + SEND_DELAY <= now)%Q ->
  pending_replies (wake GATEWAYS now st id) !! s = None /\
  send_timers (wake GATEWAYS now st id) !! s = None.
Proof.
  intros Htm Hnow.
  assert (Hd : due now (MkTimer SEND_DELAY s (Some t0) false false) = true).
  { unfold due, t_started, t_woken, t_interval, negb, andb.
    apply Qle_bool_iff. exact Hnow. }
  unfold wake. rewrite Htm, Hd. unfold Timer_run. rewrite Htm.
  unfold t_woken, t_finished, t_args.
  set (st1 := set_timers _ st).
  pose proof (send_pending_reply_effect GATEWAYS s st1) as (_ & Hp & Hs & _).
  destruct (send_pending_reply GATEWAYS s st1) as [[[] | e] st2];
    unfold snd in Hp, Hs; simpl; rewrite Hp, Hs;
    split; apply lookup_delete_eq.
Qed.


(** X17. A reply goes out once the quiet period is over, and once only.
    Take a state in which the cursor is inside the gateway list and every
    live timer is the one registered for its sender, and a run of the
    worker, taken as a whole, that ends at [now].  When the clock has
    reached [now + SEND_DELAY] exactly the stored reply has been posted
    for the sender (nothing, if it is the empty string) and no reply is
    pending any more; whatever time the clock shows later, nothing more
    is posted for the sender. *)
Theorem reply_goes_out_once (GATEWAYS : list gateway)
    (s prompt : string) (http : http_outcome) (now t later : Q) (st : state) :
  gateway_index st < length GATEWAYS ->
  timers_registered st ->
  (now + SEND_DELAY <= t)%Q ->
  let st' := elapse GATEWAYS t (snd (process_prompt_with_delay s prompt http now st)) in
  let reply := reply_of s prompt http st in
  sent_to s st' = sent_to s st ++ (if Py.truthy reply then [reply] else []) /\
  pending_replies st' !! s = None /\
  sent_to s (elapse GATEWAYS later st') = sent_to s st'.
Proof.
  intros Hcur Hreg Hle. cbv zeta.
  destruct (worker_run GATEWAYS s prompt http now st)
    as (Hreg0 & Hcur0 & Hout0 & Hpend0 & Hlen0 & Hnew0 & Hheld0).
  specialize (Hreg0 Hreg). specialize (Hcur0 Hcur).
  generalize dependent (snd (process_prompt_with_delay s prompt http now st)).
  generalize (reply_of s prompt http st).
  intros reply st0 Hreg0 Hcur0 Hout0 Hpend0 Hlen0 Hnew0 Hheld0.
  generalize dependent (length (timers st)). intros k Hlen0 Hnew0 Hheld0.
  assert (Hel : elapse GATEWAYS t st0 =
                wake GATEWAYS t (fold_left (wake GATEWAYS t) (seq 0 k) st0) k).
  { unfold elapse. now rewrite Hlen0, seq_S, fold_left_app. }
  rewrite Hel. clear Hel.
  assert (Hreg2 : timers_registered
                    (wake GATEWAYS t (fold_left (wake GATEWAYS t) (seq 0 k) st0) k)).
  { apply wake_registered. now apply wakes_registered. }
  destruct (wakes_quiet GATEWAYS t s (seq 0 k) st0) as (Hp1 & _ & Ho1).
  { apply NoDup_seq0. }
  { intros j tm Hj Htm Hargs. left.
    destruct (live tm) eqn:Hlive; [| reflexivity].
    pose proof (Hreg0 _ _ Htm Hlive) as Hr. rewrite Hargs, Hheld0 in Hr.
    injection Hr as <-. apply elem_of_seq in Hj. lia. }
  assert (Hcur1 : cursor_valid GATEWAYS (fold_left (wake GATEWAYS t) (seq 0 k) st0))
    by now apply wakes_cursor_valid.
  assert (Hnew1 : timers (fold_left (wake GATEWAYS t) (seq 0 k) st0) !! k =
                    Some (MkTimer SEND_DELAY s (Some now) false false)).
  { destruct (wakes_timers GATEWAYS t (seq 0 k) st0) as [_ Hsame].
    rewrite Hsame; [exact Hnew0 |]. rewrite elem_of_seq. lia. }
  rewrite Hpend0 in Hp1.
  destruct (wake_fires_clears GATEWAYS t now s _ k Hnew1 Hle) as [Hgone Hfree].
  split.
  { rewrite (wake_fires GATEWAYS t now s reply _ k Hcur1 Hnew1 Hle Hp1).
    congruence. }
  split; [exact Hgone |].
  revert Hreg2 Hgone Hfree.
  generalize (wake GATEWAYS t (fold_left (wake GATEWAYS t) (seq 0 k) st0) k).
  intros st2 Hreg2 Hgone Hfree.
  apply (wakes_quiet GATEWAYS later s (seq 0 (length (timers st2))) st2).
  - apply NoDup_seq0.
  - intros j tm _ Htm Hargs. left.
    destruct (live tm) eqn:Hlive; [| reflexivity].
    pose proof (Hreg2 _ _ Htm Hlive) as Hr. rewrite Hargs, Hfree in Hr.
    discriminate.
Qed.

(** ** Deliveries in a row *)

Lemma pick_gateway_set_outbox (GATEWAYS : list gateway) (o : list sms) (st : state) :
  pick_gateway GATEWAYS (set_outbox o st) =
    (fst (pick_gateway GATEWAYS st), set_outbox o (snd (pick_gateway GATEWAYS st))).
Proof.
  unfold pick_gateway, bind, get, modify, ret, raise. simpl.
  now destruct (GATEWAYS !! gateway_index st).
Qed.

Lemma pick_gateways_set_outbox (GATEWAYS : list gateway) (o : list sms) (n : nat) :
  forall st,
    pick_gateways GATEWAYS n (set_outbox o st) =
      (fst (pick_gateways GATEWAYS n st),
       set_outbox o (snd (pick_gateways GATEWAYS n st))).
Proof.
  induction n as [| n IH]; intros st; [reflexivity |].
  cbn [pick_gateways]. unfold bind at 1 3 5.
  rewrite pick_gateway_set_outbox.
  destruct (pick_gateway GATEWAYS st) as [[gw | e] st1]; [| reflexivity].
  cbn [fst snd]. unfold bind at 1 2 3. rewrite IH.
  destruct (pick_gateways GATEWAYS n st1) as [[l | e] st2]; reflexivity.
Qed.

Lemma pick_gateway_keeps_outbox (GATEWAYS : list gateway) (st : state) :
  outbox (snd (pick_gateway GATEWAYS st)) = outbox st.
Proof.
  unfold pick_gateway, bind, get, modify, ret, raise. simpl.
  now destruct (GATEWAYS !! gateway_index st).
Qed.

(** Sends in a row post through the gateways that as many calls of
    [pick_gateway] return. *)
Lemma send_all_picks (GATEWAYS : list gateway) (msgs : list (string * string)) :
  forall st gws st1,
    pick_gateways GATEWAYS (length msgs) st = (Ok gws, st1) ->
    send_all GATEWAYS msgs st =
      (Ok tt, set_outbox (outbox st ++ deliveries gws msgs) st1).
Proof.
  induction msgs as [| [to text] msgs IH]; intros st gws st1 Hpick.
  - simpl in Hpick. unfold ret in Hpick. injection Hpick as <- <-.
    simpl. unfold ret, deliveries. simpl. rewrite app_nil_r. now destruct st.
  - cbn [length pick_gateways] in Hpick. unfold bind at 1 in Hpick.
    pose proof (pick_gateway_keeps_outbox GATEWAYS st) as Hout.
    cbn [send_all]. unfold bind at 1. unfold send_sms, bind at 1.
    destruct (pick_gateway GATEWAYS st) as [[gw | e] sta]; [| discriminate].
    unfold bind at 1 in Hpick.
    destruct (pick_gateways GATEWAYS (length msgs) sta) as [[rest | e] stb] eqn:Hrest;
      [| discriminate].
    unfold ret in Hpick. injection Hpick as <- <-.
    unfold modify. simpl in Hout. rewrite Hout.
    rewrite (IH (set_outbox (outbox st ++ [Sms gw to text]) sta) rest
                (set_outbox (outbox st ++ [Sms gw to text]) stb)).
    + simpl. unfold deliveries. simpl. now rewrite <- app_assoc.
    + now rewrite pick_gateways_set_outbox, Hrest.
Qed.

(** X18. As many sends in a row as there are gateways go through every
    gateway once: from cursor [i] the messages are posted, in order,
    through the gateway list rotated to start at [i], and the cursor is
    back at [i] afterwards. *)
Theorem full_round_of_sends_uses_every_gateway (GATEWAYS : list gateway)
    (msgs : list (string * string)) (st : state) :
  gateway_index st < length GATEWAYS ->
  length msgs = length GATEWAYS ->
  send_all GATEWAYS msgs st =
    (Ok tt,
     set_outbox (outbox st ++ deliveries (rotate (gateway_index st) GATEWAYS) msgs) st).
Proof.
  intros Hcur Hlen. apply send_all_picks. rewrite Hlen.
  now apply pick_gateways_round.
Qed.

(** ** Concrete runs of the further properties *)

Lemma busy_reachable (WHITELIST : gset string) (GATEWAYS : list gateway) :
  reachable WHITELIST GATEWAYS Sample.busy.
Proof.
  apply (reachable_step _ _ initial_state); [apply reachable_start |].
  apply step_worker.
Qed.


Lemma initial_state_owned : timers_owned initial_state.
Proof. intros s id H. discriminate H. Qed.

(** X1, witness: no variable is set. *)
Lemma empty_allow_list_refuses_everyone_witness :
  let getenv := fun _ : string => @None string in
  (getenv "PHONE_NUMBER" = None \/ getenv "PHONE_NUMBER" = Some "") /\
  incoming (WHITELIST_of_env getenv) (Some Sample.sender) "Chat hello" 0 0 initial_state =
    (UNAUTHORIZED, None, initial_state).
Proof.
  intros getenv.
  assert (H : getenv "PHONE_NUMBER" = None \/ getenv "PHONE_NUMBER" = Some "")
    by (left; reflexivity).
  split; [exact H |].
  exact (proj2 (empty_allow_list_refuses_everyone getenv (Some Sample.sender)
                  "Chat hello" 0 0 initial_state H)).
Defined.

(** X2, witness: two numbers in [PHONE_NUMBER]. *)
Lemma allow_list_holds_the_listed_numbers_witness :
  let numbers := ["+15550100"; "+15550101"] in
  (Sample.getenv "PHONE_NUMBER" = Some (joined numbers) /\
   Forall (fun n => comma_free n = true) numbers /\
   joined numbers <> "") /\
  "+15550101" ∈ WHITELIST_of_env Sample.getenv.
Proof.
  intros numbers.
  assert (H1 : Sample.getenv "PHONE_NUMBER" = Some (joined numbers)) by reflexivity.
  assert (H2 : Forall (fun n => comma_free n = true) numbers)
    by (repeat constructor).
  assert (H3 : joined numbers <> "") by discriminate.
  split; [auto |].
  apply (allow_list_holds_the_listed_numbers Sample.getenv numbers "+15550101" H1 H2 H3).
  unfold numbers. apply elem_of_cons. right. apply elem_of_cons. now left.
Defined.

(** X4, witness: a body with [from_number] only. *)
Lemma incomplete_request_has_no_effect_witness :
  let data : gmap string string := {[ "from_number" := Sample.sender ]} in
  (data !! "from_number" = None \/ data !! "content" = None) /\
  incoming_post Sample.WHITELIST data 0 0 initial_state = (IGNORED, None, initial_state).
Proof.
  intros data.
  assert (H : data !! "from_number" = None \/ data !! "content" = None)
    by (right; reflexivity).
  split; [exact H |].
  destruct (incomplete_request_has_no_effect Sample.WHITELIST data 0 0 initial_state H)
    as (response & Hrun & _).
  rewrite Hrun. vm_compute in Hrun. now injection Hrun as <-.
Defined.


(** X6, witness: ["cHaT"] followed by two blanks. *)
Lemma bare_trigger_gives_empty_prompt_witness :
  let s := Sample.sender in
  (s ∈ Sample.WHITELIST /\ s <> "" /\
   Py.lstrip "cHaT  " = "cHaT  " /\
   Py.lower (Py.rstrip "cHaT  ") = Py.lower TRIGGER_PREFIX) /\
  prompt_of "cHaT  " = "".
Proof.
  intros s.
  assert (H1 : s ∈ Sample.WHITELIST) by (apply elem_of_singleton; reflexivity).
  assert (H2 : s <> "") by discriminate.
  split; [repeat split; assumption |].
  exact (proj1 (proj2 (bare_trigger_gives_empty_prompt Sample.WHITELIST s "cHaT  "
                         0 0 initial_state H1 H2 eq_refl eq_refl))).
Defined.

(** X7, witness: a message of the sample sender, seen from another
    number. *)
Lemma incoming_touches_one_record_witness :
  let st' := snd (incoming Sample.WHITELIST (Some Sample.sender) "Chat hi" 5 5
                    Sample.busy) in
  Some Sample.sender <> Some "+15550199" /\
  recent_messages st' !! "+15550199" = recent_messages Sample.busy !! "+15550199" /\
  user_contexts st' = user_contexts Sample.busy.
Proof.
  intros st'.
  assert (H : Some Sample.sender <> Some "+15550199") by discriminate.
  split; [exact H |].
  destruct (incoming_touches_one_record Sample.WHITELIST (Some Sample.sender)
              "Chat hi" 5 5 Sample.busy "+15550199" H) as (Ha & Hb & _).
  split; [exact Ha | exact Hb].
Defined.

(** X8, witness: accepted at 100, a copy at 120 is a duplicate, and the
    next copy at 131 is judged against 100 and accepted. *)
Lemma duplicate_window_is_anchored_witness :
  let s := Sample.sender in
  let st1 := snd (incoming Sample.WHITELIST (Some s) "Chat hi" 100 100 initial_state) in
  let second := incoming Sample.WHITELIST (Some s) "Chat hi" 120 120 st1 in
  let third := incoming Sample.WHITELIST (Some s) "Chat hi" 131 131 (snd second) in
  (s ∈ Sample.WHITELIST /\ s <> "" /\ passes_gate "Chat hi" = true /\
   fst (fst (incoming Sample.WHITELIST (Some s) "Chat hi" 100 100 initial_state)) = OK) /\
  fst (fst second) = DUPLICATE_IGNORED /\
  fst (fst third) <> DUPLICATE_IGNORED.
Proof.
  intros s st1 second third.
  assert (H1 : s ∈ Sample.WHITELIST) by (apply elem_of_singleton; reflexivity).
  assert (H2 : s <> "") by discriminate.
  assert (H3 : passes_gate "Chat hi" = true) by reflexivity.
  assert (H4 : fst (fst (incoming Sample.WHITELIST (Some s) "Chat hi" 100 100
                           initial_state)) = OK) by reflexivity.
  split; [repeat split; assumption |].
  destruct (duplicate_window_is_anchored Sample.WHITELIST s "Chat hi"
              100 100 120 120 131 131 initial_state H1 H2 H3 H4) as [Hsecond Hthird].
  assert (Hdup : fst (fst second) = DUPLICATE_IGNORED).
  { apply Hsecond. reflexivity. }
  split; [exact Hdup |].
  intros Hbad. apply (Hthird Hdup) in Hbad.
  revert Hbad. vm_compute. intros Hbad. discriminate Hbad.
Defined.

(** X10, witness: the sample sender has a timer; another number asks. *)
Lemma worker_leaves_other_senders_alone_witness :
  let other := Sample.sender in
  let tm := MkTimer SEND_DELAY other (Some 0%Q) false false in
  let st' := snd (process_prompt_with_delay "+15550199" "hi" (Response 200 (Some "yes"))
                    1 Sample.busy) in
  other <> "+15550199" /\
  timers st' !! 0 = Some tm /\
  pending_replies st' !! other = Some "hello".
Proof.
  intros other tm st'.
  assert (H1 : other <> "+15550199") by discriminate.
  assert (H2 : timers_owned Sample.busy)
    by exact (proj1 (proj2 (reachable_timers ∅ [] _ (busy_reachable ∅ [])))).
  assert (H3 : timers Sample.busy !! 0 = Some tm) by reflexivity.
  split; [exact H1 |].
  destruct (worker_leaves_other_senders_alone "+15550199" other "hi"
              (Response 200 (Some "yes")) 1 Sample.busy H1)
    as (_ & Hp & _ & _ & _ & _ & _ & Ht).
  split; [exact (Ht H2 0 tm H3 eq_refl) |]. fold st' in Hp. now rewrite Hp.
Defined.

(** X11, witness: the callback of another number runs while the sample
    sender has a reply pending. *)
Lemma callback_leaves_other_senders_alone_witness :
  let st' := snd (send_pending_reply Sample.GATEWAYS "+15550199" Sample.busy) in
  Sample.sender <> "+15550199" /\
  pending_replies st' !! Sample.sender = Some "hello" /\
  sent_to Sample.sender st' = [].
Proof.
  intros st'.
  assert (H : Sample.sender <> "+15550199") by discriminate.
  split; [exact H |].
  destruct (callback_leaves_other_senders_alone Sample.GATEWAYS "+15550199"
              Sample.sender Sample.busy H) as (Hp & _ & Ho & _).
  fold st' in Hp, Ho. now rewrite Hp, Ho.
Defined.

(** X12, witness: a send in the state after one answered question. *)
Lemma gateway_is_always_available_witness :
  reachable Sample.WHITELIST (GATEWAYS_of_env Sample.getenv) Sample.busy /\
  fst (send_sms (GATEWAYS_of_env Sample.getenv) Sample.sender "hello" Sample.busy)
    = Ok tt.
Proof.
  assert (H : reachable Sample.WHITELIST (GATEWAYS_of_env Sample.getenv) Sample.busy)
    by apply busy_reachable.
  split; [exact H |].
  destruct (gateway_is_always_available Sample.WHITELIST Sample.getenv Sample.busy
              Sample.sender "hello" H) as (gw & _ & Hsend).
  now rewrite Hsend.
Defined.

(** X13, witness: the context after one answered question. *)
Lemma context_stays_within_eleven_turns_witness :
  reachable Sample.WHITELIST Sample.GATEWAYS Sample.busy /\
  length (context_of Sample.sender Sample.busy) <= MAX_CONTEXT_LEN + 1.
Proof.
  assert (H : reachable Sample.WHITELIST Sample.GATEWAYS Sample.busy)
    by apply busy_reachable.
  split; [exact H |].
  exact (context_stays_within_eleven_turns _ _ Sample.busy Sample.sender H).
Defined.


(** X15, witness: the pending reply after one answered question. *)
Lemma pending_reply_has_a_live_timer_witness :
  (reachable Sample.WHITELIST Sample.GATEWAYS Sample.busy /\
   pending_replies Sample.busy !! Sample.sender = Some "hello") /\
  exists id tm,
    send_timers Sample.busy !! Sample.sender = Some id /\
    timers Sample.busy !! id = Some tm /\ live tm = true.
Proof.
  assert (H : reachable Sample.WHITELIST Sample.GATEWAYS Sample.busy)
    by apply busy_reachable.
  assert (H1 : pending_replies Sample.busy !! Sample.sender = Some "hello")
    by reflexivity.
  split; [split; assumption |].
  destruct (pending_reply_has_a_live_timer _ _ Sample.busy Sample.sender "hello" H H1)
    as (id & tm & Ha & Hb & Hc & _).
  exists id, tm. repeat split; assumption.
Defined.


(** X17, witness: two seconds after the answer the reply has gone out,
    and it is not sent again later. *)
Lemma reply_goes_out_once_witness :
  let st' := elapse Sample.GATEWAYS 2 Sample.busy in
  (gateway_index initial_state < length Sample.GATEWAYS /\
   timers_registered initial_state /\ (0 + SEND_DELAY <= 2)%Q) /\
  sent_to Sample.sender st' = ["hello"] /\
  sent_to Sample.sender (elapse Sample.GATEWAYS 60 st') = sent_to Sample.sender st'.
Proof.
  intros st'.
  assert (H1 : gateway_index initial_state < length Sample.GATEWAYS) by (simpl; lia).
  assert (H2 : (0 + SEND_DELAY <= 2)%Q) by (vm_compute; discriminate).
  split; [repeat split; try assumption; apply initial_state_registered |].
  destruct (reply_goes_out_once Sample.GATEWAYS Sample.sender "hi"
              (Response 200 (Some "hello")) 0 2 60 initial_state
              H1 initial_state_registered H2) as (Ha & _ & Hb).
  split; [exact Ha | exact Hb].
Defined.

(** X18, witness: two sends with the cursor on the second gateway. *)
Lemma full_round_of_sends_uses_every_gateway_witness :
  let st := set_gateway_index 1 initial_state in
  let msgs := [("+15550100", "one"); ("+15550101", "two")] in
  (gateway_index st < length Sample.GATEWAYS /\ length msgs = length Sample.GATEWAYS) /\
  send_all Sample.GATEWAYS msgs st =
    (Ok tt,
     set_outbox [Sms Sample.gateway2 "+15550100" "one";
                 Sms Sample.gateway1 "+15550101" "two"] st).
Proof.
  intros st msgs.
  assert (H1 : gateway_index st < length Sample.GATEWAYS) by (simpl; lia).
  split; [split; [exact H1 | reflexivity] |].
  exact (full_round_of_sends_uses_every_gateway Sample.GATEWAYS msgs st H1 eq_refl).
Defined.
